(** * CountdownTimer: a shallow embedding of [src/countdown-timer.js]

    The class renders the time remaining until (or elapsed since) a target
    instant.  This development embeds the methods of the class as Rocq
    functions: [pad], [isLeapYear], [formatDiff], [updateDisplay], the
    closure [updateTime] of [startTimer], [createElements],
    [createTimer] and the constructor, and then states the properties of
    the design document, and further properties of the code, against them.

    Conventions of the embedding.
    - A JavaScript number that the program computes is always an integer
      here (millisecond instants, counters, [Math.floor] results); it is a
      [Z].  [NaN], which only arises from converting a string, is the
      [None] of [option Z].  Instants are assumed to stay in the range where
      a double represents every integer exactly.
    - [pad] returns a number or a string depending on the settings, so the
      entries of a breakdown are JavaScript values ([JS.value]) and the
      comparisons applied to them follow the language's coercion rules.
    - The document is reduced to what the class touches: the ordered child
      nodes of the timer element, the [aria-hidden] attribute and text of
      each interval element, and the [aria-live] attribute of the timer.
    - Reading the clock ([new Date()]) is an input of each call, and the
      host's calendar ([Date.prototype.getFullYear]) is a parameter. *)

From Stdlib Require Import ZArith List String Ascii Bool Lia DecimalString.
Import ListNotations.
Open Scope Z_scope.

(** ** JavaScript values and the coercions the class relies on *)

Module JS.

Inductive value : Type :=
| VNum (n : Z)
| VStr (s : string).

(** [Number.prototype.toString] on an integer. *)
Definition numToString (n : Z) : string :=
  NilZero.string_of_int (Z.to_int n).

(** Template-literal interpolation: [`${ v }`]. *)
Definition toString (v : value) : string :=
  match v with
  | VNum n => numToString n
  | VStr s => s
  end.

Definition digitOf (c : ascii) : option Z :=
  let n := Z.of_nat (nat_of_ascii c) in
  if (48 <=? n) && (n <=? 57) then Some (n - 48) else None.

Fixpoint digitsToNumber (s : string) (acc : Z) : option Z :=
  match s with
  | EmptyString => Some acc
  | String c rest =>
      match digitOf c with
      | Some d => digitsToNumber rest (10 * acc + d)
      | None => None
      end
  end.

(** [ToNumber] on a string, for signed decimal integer literals; the
    empty string converts to 0 and anything else that is not a run of
    decimal digits is [NaN].  (White space, fractions, exponents and
    radix prefixes never occur in a string this class builds.) *)
Definition stringToNumber (s : string) : option Z :=
  match s with
  | EmptyString => Some 0
  | String c rest =>
      if Ascii.eqb c "-" then
        if String.eqb rest EmptyString then None
        else option_map Z.opp (digitsToNumber rest 0)
      else if Ascii.eqb c "+" then
        if String.eqb rest EmptyString then None
        else digitsToNumber rest 0
      else digitsToNumber s 0
  end.

Definition toNumber (v : value) : option Z :=
  match v with
  | VNum n => Some n
  | VStr s => stringToNumber s
  end.

(** [ToBoolean]: a number is truthy unless it is 0, a string unless it
    is empty. *)
Definition toBoolean (v : value) : bool :=
  match v with
  | VNum n => negb (n =? 0)
  | VStr s => negb (String.eqb s EmptyString)
  end.

(** [a < v] with a numeric left operand: the right operand is converted
    with [ToNumber], and a comparison with [NaN] is false. *)
Definition numLt (a : Z) (v : value) : bool :=
  match toNumber v with
  | Some n => a <? n
  | None => false
  end.

(** [a === v] with a numeric left operand: no coercion, so a string is
    never strictly equal to a number. *)
Definition numStrictEq (a : Z) (v : value) : bool :=
  match v with
  | VNum n => a =? n
  | VStr _ => false
  end.

End JS.

Import JS.

(** ** Settings (the [defaults] object merged with the caller's options) *)

(** Per-interval label data: [{ allowed, singular, plural }]. *)
Record Label : Type := mkLabel {
  allowed : bool;
  singular : string;
  plural : string
}.

(** [this.settings].  A hook field is [true] when a function was supplied
    for it (the guard [settings.onX && 'function' === typeof settings.onX]). *)
Record Settings : Type := mkSettings {
  onCreate : bool;
  onEnd : bool;
  onTick : bool;
  compact : bool;
  allowNegative : bool;
  padValues : bool;
  separator : string;
  showZeroes : bool;
  years : Label;
  weeks : Label;
  days : Label;
  hours : Label;
  minutes : Label;
  seconds : Label
}.

Definition defaults : Settings := {|
  onCreate := false;
  onEnd := false;
  onTick := false;
  compact := false;
  allowNegative := false;
  padValues := false;
  separator := ", ";
  showZeroes := false;
  years := mkLabel true "year" "years";
  weeks := mkLabel true "week" "weeks";
  days := mkLabel true "day" "days";
  hours := mkLabel true "hour" "hours";
  minutes := mkLabel true "minute" "minutes";
  seconds := mkLabel true "second" "seconds"
|}.

(** ** [pad] and [isLeapYear] *)

(** [pad( n )] (lines 443-449): with [padValues], a number below 10 becomes the string
    ["0" + n]; every other number is returned unchanged. *)
Definition pad (settings : Settings) (n : Z) : value :=
  if padValues settings then
    if n <? 10 then VStr ("0" ++ numToString n) else VNum n
  else
    VNum n.

(** [isLeapYear( year )] (lines 456-458):
    [0 === year % 100 ? 0 === year % 400 : 0 === year % 4].
    JavaScript's [%] truncates towards zero, which is [Z.rem]. *)
Definition isLeapYear (year : Z) : bool :=
  if 0 =? Z.rem year 100 then 0 =? Z.rem year 400 else 0 =? Z.rem year 4.

(** ** [formatDiff] (lines 359-418) *)

Definition msPerSecond : Z := 1000.
Definition msPerMinute : Z := 60 * msPerSecond.
Definition msPerHour : Z := 60 * msPerMinute.
Definition msPerDay : Z := 24 * msPerHour.

(** The mutable locals of the first loop of [formatDiff]. *)
Record YearLoop : Type := mkYearLoop {
  yl_years : Z;
  yl_days : Z;
  yl_yearToCheck : Z
}.

(** The guard [checkYear && 365 <= days], where [checkYear] always holds
    the value of [yearToCheck !== finalYear]. *)
Definition yearLoopGuard (finalYear : Z) (st : YearLoop) : bool :=
  negb (yl_yearToCheck st =? finalYear) && (365 <=? yl_days st).

(** One pass through the body of the first loop (lines 382-396). *)
Definition yearLoopBody (isNegative : bool) (st : YearLoop) : YearLoop :=
  {| yl_years := yl_years st + 1;
     yl_days := if isLeapYear (yl_yearToCheck st)
                then yl_days st - 366
                else yl_days st - 365;
     yl_yearToCheck := if isNegative
                       then yl_yearToCheck st - 1
                       else yl_yearToCheck st + 1 |}.

(** The first [while] loop (line 381), unrolled at most [fuel] times. *)
Fixpoint yearLoop (fuel : nat) (isNegative : bool) (finalYear : Z)
    (st : YearLoop) : YearLoop :=
  match fuel with
  | O => st
  | S fuel' =>
      if yearLoopGuard finalYear st
      then yearLoop fuel' isNegative finalYear (yearLoopBody isNegative st)
      else st
  end.

(** The mutable locals of the second loop of [formatDiff]. *)
Record WeekLoop : Type := mkWeekLoop {
  wl_years : Z;
  wl_weeks : Z;
  wl_days : Z
}.

Definition weekLoopGuard (st : WeekLoop) : bool := 7 <=? wl_days st.

Definition weekLoopBody (st : WeekLoop) : WeekLoop :=
  let days := wl_days st - 7 in
  let weeks := wl_weeks st + 1 in
  if 52 <=? weeks
  then {| wl_years := wl_years st + 1; wl_weeks := 0; wl_days := days |}
  else {| wl_years := wl_years st; wl_weeks := weeks; wl_days := days |}.

(** The second [while] loop (line 403), unrolled at most [fuel] times. *)
Fixpoint weekLoop (fuel : nat) (st : WeekLoop) : WeekLoop :=
  match fuel with
  | O => st
  | S fuel' =>
      if weekLoopGuard st then weekLoop fuel' (weekLoopBody st) else st
  end.

(** Both loops take away at least 7 from [days] on every pass and only
    run while [days] is at least 7, so [days] passes always suffice. *)
Definition loopFuel (days : Z) : nat := Z.to_nat days.

Section Decomposition.

(** The host's [new Date( t ).getFullYear()]: the calendar year, in the
    local time zone, of the instant [t] (epoch milliseconds). *)
Variable getFullYear : Z -> Z.

(** The six numbers [formatDiff] has computed when it reaches its
    [return], in the order years, weeks, days, hours, minutes, seconds.
    [now] is the clock reading of [const now = new Date()]. *)
Definition formatDiffNumbers (milliseconds time now : Z) : list Z :=
  let isNegative := milliseconds <? 0 in
  let finalYear := getFullYear time in
  let hours := Z.rem (Z.abs milliseconds) msPerDay / msPerHour in
  let minutes := Z.rem (Z.abs milliseconds) msPerHour / msPerMinute in
  let seconds := Z.rem (Z.abs milliseconds) msPerMinute / msPerSecond in
  let days := Z.abs milliseconds / msPerDay in
  let afterYears :=
    yearLoop (loopFuel days) isNegative finalYear
      {| yl_years := 0; yl_days := days; yl_yearToCheck := getFullYear now |} in
  let afterWeeks :=
    weekLoop (loopFuel (yl_days afterYears))
      {| wl_years := yl_years afterYears; wl_weeks := 0;
         wl_days := yl_days afterYears |} in
  [ wl_years afterWeeks; wl_weeks afterWeeks; wl_days afterWeeks;
    hours; minutes; seconds ].

(** [formatDiff( milliseconds, time )]: every number goes through [pad]. *)
Definition formatDiff (settings : Settings) (milliseconds time now : Z)
    : list value :=
  map (pad settings) (formatDiffNumbers milliseconds time now).

End Decomposition.

(** ** The document: interval elements and the timer element *)

(** The six [span] elements of [createElements], named by their class. *)
Inductive Unit : Type :=
| Years | Weeks | Days | Hours | Minutes | Seconds.

Definition Unit_eqb (a b : Unit) : bool :=
  match a, b with
  | Years, Years | Weeks, Weeks | Days, Days
  | Hours, Hours | Minutes, Minutes | Seconds, Seconds => true
  | _, _ => false
  end.

(** The array [[ years, weeks, days, hours, minutes, seconds ]] handed to
    [startTimer]. *)
Definition intervals : list Unit :=
  [Years; Weeks; Days; Hours; Minutes; Seconds].

(** The label data of an interval in the settings. *)
Definition labelOf (settings : Settings) (u : Unit) : Label :=
  match u with
  | Years => years settings
  | Weeks => weeks settings
  | Days => days settings
  | Hours => hours settings
  | Minutes => minutes settings
  | Seconds => seconds settings
  end.

(** A child node of the timer element: one of the interval elements, or a
    text node holding the separator. *)
Inductive Node : Type :=
| Interval (u : Unit)
| Separator.

Definition isInterval (u : Unit) (n : Node) : bool :=
  match n with
  | Interval v => Unit_eqb u v
  | Separator => false
  end.

Inductive Live : Type := Polite | Off.

(** What the class reads and writes of the document, for one timer.
    An attribute that was never set is [None]; [content] is the text that
    [updateDisplay] last wrote into an interval (its [textContent] and its
    [aria-label]). *)
Record Timer : Type := mkTimer {
  children : list Node;
  ariaHidden : Unit -> option bool;
  ariaLive : option Live;
  content : Unit -> option string
}.

Definition update {A : Type} (f : Unit -> A) (u : Unit) (a : A) : Unit -> A :=
  fun v => if Unit_eqb u v then a else f v.

(** [timer.contains( interval )]. *)
Definition contains (timer : Timer) (u : Unit) : bool :=
  existsb (isInterval u) (children timer).

(** The child list after [timer.removeChild( interval )]. *)
Fixpoint dropInterval (u : Unit) (l : list Node) : list Node :=
  match l with
  | [] => []
  | n :: rest => if isInterval u n then rest else n :: dropInterval u rest
  end.

(** The child list after
    [if ( interval.nextSibling ) timer.removeChild( interval.nextSibling )]. *)
Fixpoint dropNextSibling (u : Unit) (l : list Node) : list Node :=
  match l with
  | [] => []
  | n :: rest =>
      if isInterval u n then n :: tl rest else n :: dropNextSibling u rest
  end.

(** [interval.previousSibling] is not null. *)
Fixpoint hasPreviousSibling (u : Unit) (l : list Node) : bool :=
  match l with
  | [] => false
  | _ :: rest =>
      match rest with
      | [] => false
      | m :: _ => isInterval u m || hasPreviousSibling u rest
      end
  end.

(** The child list after [timer.removeChild( interval.previousSibling )]. *)
Fixpoint dropPreviousSibling (u : Unit) (l : list Node) : list Node :=
  match l with
  | [] => []
  | n :: rest =>
      match rest with
      | [] => [n]
      | m :: _ =>
          if isInterval u m then rest else n :: dropPreviousSibling u rest
      end
  end.

Definition setChildren (timer : Timer) (l : list Node) : Timer :=
  {| children := l; ariaHidden := ariaHidden timer;
     ariaLive := ariaLive timer; content := content timer |}.

Definition setAriaHidden (timer : Timer) (u : Unit) (b : bool) : Timer :=
  {| children := children timer; ariaHidden := update (ariaHidden timer) u (Some b);
     ariaLive := ariaLive timer; content := content timer |}.

Definition setAriaLive (timer : Timer) (p : Live) : Timer :=
  {| children := children timer; ariaHidden := ariaHidden timer;
     ariaLive := Some p; content := content timer |}.

Definition setContent (timer : Timer) (u : Unit) (s : string) : Timer :=
  {| children := children timer; ariaHidden := ariaHidden timer;
     ariaLive := ariaLive timer; content := update (content timer) u (Some s) |}.

(** ** [updateDisplay] (lines 428-436) *)

(** The label [updateDisplay] picks:
    [1 < value || 0 === value ? label.plural : label.singular]. *)
Definition unitsFor (value : value) (label : Label) : string :=
  if numLt 1 value || numStrictEq 0 value then plural label else singular label.

(** [updateDisplay( timer, interval, value, label )]. *)
Definition updateDisplay (timer : Timer) (interval : Unit) (value : value)
    (label : Label) : Timer :=
  if contains timer interval then
    setContent timer interval (toString value ++ " " ++ unitsFor value label)
  else timer.

(** ** [startTimer] and its closure [updateTime] (lines 221-351) *)

(** What a call observably does besides changing the document: the hooks
    it invokes and the errors it logs, oldest first.  Of the payload of a
    hook only the target and the delta are kept. *)
Inductive Event : Type :=
| CreateHook (time : Z)
| TickHook (time diff : Z)
| EndHook (time : Z)
| ConsoleError.

(** How a call completes: normally, or by throwing the [ReferenceError]
    that reading a [const] binding before its initialisation raises. *)
Inductive Completion : Type :=
| Normal
| ReferenceError.

(** The state one timer lives in.  [repeat] is the binding
    [const repeat = window.setInterval( ... )] of [startTimer]: [None]
    until that declaration has been evaluated, the interval handle
    afterwards.  [scheduled] tells whether the host still holds the
    interval that calls [updateTime]. *)
Record Session : Type := mkSession {
  element : Timer;
  repeat : option Z;
  scheduled : bool;
  events : list Event
}.

Definition withTimer (s : Session) (t : Timer) : Session :=
  {| element := t; repeat := repeat s; scheduled := scheduled s;
     events := events s |}.

Definition logEvent (s : Session) (e : Event) : Session :=
  {| element := element s; repeat := repeat s; scheduled := scheduled s;
     events := events s ++ [e] |}.

(** The clock readings of one call of [updateTime]: [new Date().getTime()]
    at its start, and the [new Date()] inside [formatDiff]. *)
Record Clock : Type := mkClock {
  atUpdate : Z;
  atFormat : Z
}.

(** The callback handed to [parsedDiff.find] (lines 238-256), run over
    the entries in order; [index] is the position of the head of [entries].  The result
    is the document and [highestNonzero] when [find] stops. *)
Fixpoint findHighestNonzero (settings : Settings)
    (entries : list (Unit * value)) (index : nat)
    (timer : Timer) (highestNonzero : option nat) : Timer * option nat :=
  match entries with
  | [] => (timer, highestNonzero)
  | (interval, remaining) :: rest =>
      if numLt 0 remaining then
        (* highestNonzero = index; return remaining; *)
        if toBoolean remaining then (timer, Some index)
        else findHighestNonzero settings rest (S index) timer (Some index)
      else if match highestNonzero with None => true | Some _ => false end
              && negb (Unit_eqb interval Seconds) then
        let timer1 := setAriaHidden timer interval true in
        let timer2 :=
          if negb (showZeroes settings) && contains timer1 interval then
            setChildren timer1
              (dropInterval interval (dropNextSibling interval (children timer1)))
          else timer1 in
        findHighestNonzero settings rest (S index) timer2 highestNonzero
      else
        findHighestNonzero settings rest (S index) timer highestNonzero
  end.

(** [highestNonzero === intervals.length - 1]. *)
Definition isLastIndex (highestNonzero : option nat) : bool :=
  match highestNonzero with
  | Some i => Nat.eqb i (List.length intervals - 1)
  | None => false
  end.

(** The [aria-live] decision that follows the scan (lines 259-270). *)
Definition announce (parsedDiff : list value) (highestNonzero : option nat)
    (timer : Timer) : Timer :=
  if isLastIndex highestNonzero then
    setAriaHidden (setAriaLive timer Polite) Seconds false
  else if numStrictEq 0 (nth 5 parsedDiff (VNum 0)) then
    setAriaLive timer Polite
  else
    setAriaLive timer Off.

(** The body of [intervals.forEach] (lines 275-290), run over the
    intervals in order. *)
Fixpoint showHighest (settings : Settings) (rest : list Unit) (index : nat)
    (highestNonzero : nat) (timer : Timer) : Timer :=
  match rest with
  | [] => timer
  | interval :: rest' =>
      let timer1 :=
        if compact settings && hasPreviousSibling interval (children timer)
        then setChildren timer (dropPreviousSibling interval (children timer))
        else timer in
      let timer2 :=
        if Nat.eqb highestNonzero index then
          if negb (contains timer1 interval)
          then setChildren timer1 (children timer1 ++ [Interval interval])
          else timer1
        else if compact settings && contains timer1 interval then
          setChildren timer1 (dropInterval interval (children timer1))
        else timer1 in
      showHighest settings rest' (S index) highestNonzero timer2
  end.

(** The six [updateDisplay] calls with one value per interval. *)
Fixpoint updateDisplays (settings : Settings) (entries : list (Unit * value))
    (timer : Timer) : Timer :=
  match entries with
  | [] => timer
  | (interval, value) :: rest =>
      updateDisplays settings rest
        (updateDisplay timer interval value (labelOf settings interval))
  end.

Definition zeroes : list value := map (fun _ => VNum 0) intervals.

Section Ticking.

Variable getFullYear : Z -> Z.

(** The document after the part of [updateTime] that precedes the test
    [0 >= diff && ! allowNegative], with the [highestNonzero] it found. *)
Definition resolve (settings : Settings) (time : Z) (clock : Clock)
    (timer : Timer) : Timer * option nat :=
  let diff := time - atUpdate clock in
  let parsedDiff := formatDiff getFullYear settings diff time (atFormat clock) in
  let '(timer1, highestNonzero) :=
    findHighestNonzero settings (combine intervals parsedDiff) 0 timer None in
  let timer2 := announce parsedDiff highestNonzero timer1 in
  match highestNonzero with
  | Some i => (showHighest settings intervals 0 i timer2, highestNonzero)
  | None => (timer2, highestNonzero)
  end.

(** [updateTime()] (lines 228-346).  The branch of line 294 reads
    [repeat] at line 303, after the display was zeroed and before the
    [onEnd] hook. *)
Definition updateTime (settings : Settings) (time : Z) (clock : Clock)
    (s : Session) : Session * Completion :=
  let diff := time - atUpdate clock in
  let parsedDiff := formatDiff getFullYear settings diff time (atFormat clock) in
  let timer1 := fst (resolve settings time clock (element s)) in
  if (diff <=? 0) && negb (allowNegative settings) then
    let s1 := withTimer s (updateDisplays settings (combine intervals zeroes) timer1) in
    match repeat s1 with
    | None => (s1, ReferenceError)
    | Some handle =>
        let s2 :=
          if negb (handle =? 0)
          then {| element := element s1; repeat := repeat s1; scheduled := false;
                  events := events s1 |}
          else s1 in
        let s3 := if onEnd settings then logEvent s2 (EndHook time) else s2 in
        (s3, Normal)
    end
  else
    let s1 := withTimer s (updateDisplays settings (combine intervals parsedDiff) timer1) in
    let s2 := if onTick settings then logEvent s1 (TickHook time diff) else s1 in
    (s2, Normal).

(** [startTimer( timer, time, intervals )] (lines 221-351): the call opens a scope in
    which [repeat] is declared but not yet initialised, runs [updateTime]
    once, and only then installs the interval and binds its handle to
    [repeat].  [handle] is what [window.setInterval] returns; [log] holds
    the events that preceded the call. *)
Definition startTimer (settings : Settings) (time : Z) (clock : Clock)
    (handle : Z) (timer : Timer) (log : list Event) : Session * Completion :=
  let s := {| element := timer; repeat := None; scheduled := false;
              events := log |} in
  match updateTime settings time clock s with
  | (s1, ReferenceError) => (s1, ReferenceError)
  | (s1, Normal) =>
      ({| element := element s1; repeat := Some handle; scheduled := true;
          events := events s1 |}, Normal)
  end.

(** The host firing the interval once: [updateTime] runs if the
    interval is still scheduled. *)
Definition fire (settings : Settings) (time : Z) (s : Session)
    (clock : Clock) : Session :=
  if scheduled s then fst (updateTime settings time clock s) else s.

(** The host firing the interval at each clock reading of [clocks]. *)
Definition run (settings : Settings) (time : Z) (clocks : list Clock)
    (s : Session) : Session :=
  fold_left (fire settings time) clocks s.

(** ** [createElements] and [createTimer] *)

(** The fragment [createElements] builds (lines 165-207): each allowed interval, followed
    by a separator when some later interval is allowed too. *)
Fixpoint fragment (settings : Settings) (rest : list Unit) : list Node :=
  match rest with
  | [] => []
  | interval :: rest' =>
      if allowed (labelOf settings interval) then
        Interval interval ::
        (if existsb (fun v => allowed (labelOf settings v)) rest'
         then [Separator] else []) ++ fragment settings rest'
      else fragment settings rest'
  end.

(** The timer element when [createElements] calls [startTimer]: the
    fallback content was cleared, the fragment appended, and only the
    seconds element carries [aria-hidden="true"]. *)
Definition createdTimer (settings : Settings) : Timer :=
  {| children := fragment settings intervals;
     ariaHidden := update (fun _ => None) Seconds (Some true);
     ariaLive := None;
     content := fun _ => None |}.

(** [createElements( timer, time )]; [log] holds the events that
    preceded the call. *)
Definition createElements (settings : Settings) (time : Z) (clock : Clock)
    (handle : Z) (log : list Event) : Session * Completion :=
  startTimer settings time clock handle (createdTimer settings) log.

(** The test [! time || isNaN( time )] (line 107): [NaN], or the falsy number 0. *)
Definition invalidTime (parsed : option Z) : bool :=
  match parsed with
  | None => true
  | Some t => t =? 0
  end.

(** [createTimer( timer )] (lines 82-127).  [parsed] is
    [new Date( timer.getAttribute( 'datetime' ) ).getTime()], with [None]
    for [NaN]; [atCreate] is the clock reading of the substitution
    [time = new Date().getTime()]. *)
Definition createTimer (settings : Settings) (parsed : option Z)
    (atCreate : Z) (clock : Clock) (handle : Z) : Session * Completion :=
  let invalid := invalidTime parsed in
  let time :=
    match parsed with
    | Some t => if invalid then atCreate else t
    | None => atCreate
    end in
  let log1 := if invalid then [ConsoleError] else [] in
  let log2 := if onCreate settings then log1 ++ [CreateHook time] else log1 in
  createElements settings time clock handle log2.

End Ticking.

(** ** A host calendar: the proleptic Gregorian year in UTC *)

(** [getFullYear] of a host whose local time zone is UTC: the year of the
    day [floor( t / msPerDay )] counted from 1970-01-01. *)
Definition utcFullYear (t : Z) : Z :=
  let z := t / msPerDay + 719468 in
  let era := z / 146097 in
  let doe := z - era * 146097 in
  let yoe := (doe - doe / 1460 + doe / 36524 - doe / 146096) / 365 in
  let doy := doe - (365 * yoe + yoe / 4 - yoe / 100) in
  let mp := (5 * doy + 2) / 153 in
  yoe + era * 400 + (if mp <? 10 then 0 else 1).

(** The document an expired call of [updateTime] leaves: the six
    [updateDisplay( timer, interval, 0, label )] calls were made. *)
Definition expiredTimer (getFullYear : Z -> Z) (settings : Settings) (time : Z)
    (clock : Clock) (timer : Timer) : Timer :=
  updateDisplays settings (combine intervals zeroes)
    (fst (resolve getFullYear settings time clock timer)).

(** The index of the first entry of a breakdown that passes the test
    [0 < remaining], counting from [index]. *)
Fixpoint firstPositive (values : list value) (index : nat) : option nat :=
  match values with
  | [] => None
  | v :: rest => if numLt 0 v then Some index else firstPositive rest (S index)
  end.

Definition Event_eq_dec (a b : Event) : {a = b} + {a <> b}.
Proof. decide equality; apply Z.eq_dec. Defined.

(** ** Inputs of the examples *)

(** Two instants (epoch milliseconds): 2024-03-01 and 2025-03-01, 00:00 UTC. *)
Definition march_1_2024 : Z := 1709251200000.
Definition march_1_2025 : Z := 1740787200000.

(** The defaults with all three hooks supplied. *)
Definition withHooks : Settings := {|
  onCreate := true; onEnd := true; onTick := true;
  compact := false; allowNegative := false; padValues := false;
  separator := ", "; showZeroes := false;
  years := years defaults; weeks := weeks defaults; days := days defaults;
  hours := hours defaults; minutes := minutes defaults;
  seconds := seconds defaults
|}.

(** The defaults with [padValues: true]. *)
Definition padded : Settings := {|
  onCreate := false; onEnd := false; onTick := false;
  compact := false; allowNegative := false; padValues := true;
  separator := ", "; showZeroes := false;
  years := years defaults; weeks := weeks defaults; days := days defaults;
  hours := hours defaults; minutes := minutes defaults;
  seconds := seconds defaults
|}.

(** The defaults with [compact: true]. *)
Definition compacted : Settings := {|
  onCreate := false; onEnd := false; onTick := false;
  compact := true; allowNegative := false; padValues := false;
  separator := ", "; showZeroes := false;
  years := years defaults; weeks := weeks defaults; days := days defaults;
  hours := hours defaults; minutes := minutes defaults;
  seconds := seconds defaults
|}.

(** The defaults with [showZeroes: true]. *)
Definition zeroesShown : Settings := {|
  onCreate := false; onEnd := false; onTick := false;
  compact := false; allowNegative := false; padValues := false;
  separator := ", "; showZeroes := true;
  years := years defaults; weeks := weeks defaults; days := days defaults;
  hours := hours defaults; minutes := minutes defaults;
  seconds := seconds defaults
|}.

(** The defaults with [allowNegative: true] and all three hooks. *)
Definition countingUp : Settings := {|
  onCreate := true; onEnd := true; onTick := true;
  compact := false; allowNegative := true; padValues := false;
  separator := ", "; showZeroes := false;
  years := years defaults; weeks := weeks defaults; days := days defaults;
  hours := hours defaults; minutes := minutes defaults;
  seconds := seconds defaults
|}.

(** The defaults with [years: { allowed: false, ... }]. *)
Definition withoutYears : Settings := {|
  onCreate := false; onEnd := false; onTick := false;
  compact := false; allowNegative := false; padValues := false;
  separator := ", "; showZeroes := false;
  years := mkLabel false "year" "years";
  weeks := weeks defaults; days := days defaults;
  hours := hours defaults; minutes := minutes defaults;
  seconds := seconds defaults
|}.

(** ** The constructor (lines 19-74) *)

(** The [options] argument: every key may be missing.  A hook is [true]
    when the value given is a function; an interval's label data, when
    given, is taken to be a complete object. *)
Record Options : Type := mkOptions {
  opt_onCreate : option bool;
  opt_onEnd : option bool;
  opt_onTick : option bool;
  opt_compact : option bool;
  opt_allowNegative : option bool;
  opt_padValues : option bool;
  opt_separator : option string;
  opt_showZeroes : option bool;
  opt_years : option Label;
  opt_weeks : option Label;
  opt_days : option Label;
  opt_hours : option Label;
  opt_minutes : option Label;
  opt_seconds : option Label
}.

Definition orDefault {A : Type} (given : option A) (default : A) : A :=
  match given with
  | Some a => a
  | None => default
  end.

(** [Object.assign( {}, defaults, options )]: a shallow merge, key by key. *)
Definition assign (base : Settings) (options : Options) : Settings := {|
  onCreate := orDefault (opt_onCreate options) (onCreate base);
  onEnd := orDefault (opt_onEnd options) (onEnd base);
  onTick := orDefault (opt_onTick options) (onTick base);
  compact := orDefault (opt_compact options) (compact base);
  allowNegative := orDefault (opt_allowNegative options) (allowNegative base);
  padValues := orDefault (opt_padValues options) (padValues base);
  separator := orDefault (opt_separator options) (separator base);
  showZeroes := orDefault (opt_showZeroes options) (showZeroes base);
  years := orDefault (opt_years options) (years base);
  weeks := orDefault (opt_weeks options) (weeks base);
  days := orDefault (opt_days options) (days base);
  hours := orDefault (opt_hours options) (hours base);
  minutes := orDefault (opt_minutes options) (minutes base);
  seconds := orDefault (opt_seconds options) (seconds base)
|}.

(** What the host supplies while one element of [this.$timers] is set up:
    the parsed [datetime], the clock readings, and the handle that
    [window.setInterval] returns. *)
Record Target : Type := mkTarget {
  parsedTime : option Z;
  atCreate : Z;
  firstClock : Clock;
  intervalHandle : Z
}.

(** The target instant [createTimer] works with (lines 83 and 107-110). *)
Definition effectiveTime (e : Target) : Z :=
  match parsedTime e with
  | Some t => if t =? 0 then atCreate e else t
  | None => atCreate e
  end.

(** [this.$timers.forEach( ( timer ) => this.createTimer( timer ) )]: the
    elements are set up in document order, and an exception thrown by one
    call ends the loop.  The result lists the sessions started, in order. *)
Fixpoint createTimers (getFullYear : Z -> Z) (settings : Settings)
    (found : list Target) : list Session * Completion :=
  match found with
  | [] => ([], Normal)
  | e :: rest =>
      match createTimer getFullYear settings (parsedTime e) (atCreate e)
              (firstClock e) (intervalHandle e) with
      | (s, ReferenceError) => ([s], ReferenceError)
      | (s, Normal) =>
          let '(sessions, completion) := createTimers getFullYear settings rest in
          (s :: sessions, completion)
      end
  end.

(** [new CountdownTimer( element, options )].  [element] is the truthiness
    of the selector and [found] what [document.querySelectorAll] returned
    for it (a selector the host rejects is outside the model).  The result
    is the number of errors logged by the constructor itself, the sessions
    started and how the call completed. *)
Definition CountdownTimer (getFullYear : Z -> Z) (element : bool)
    (options : Options) (found : list Target)
    : nat * list Session * Completion :=
  let settings := assign defaults options in
  if negb element || Nat.eqb (List.length found) 0 then (1%nat, [], Normal)
  else
    let '(sessions, completion) := createTimers getFullYear settings found in
    (0%nat, sessions, completion).

(** ** Vocabulary of the statements *)

(** [x1; sep; x2; sep; ...; xn]. *)
Fixpoint intersperse {A : Type} (sep : A) (l : list A) : list A :=
  match l with
  | [] => []
  | x :: rest =>
      match rest with
      | [] => [x]
      | _ :: _ => x :: sep :: intersperse sep rest
      end
  end.

(** The intervals the settings allow, in order. *)
Definition allowedIntervals (settings : Settings) : list Unit :=
  filter (fun u => allowed (labelOf settings u)) intervals.

(** The index of the first number of a breakdown that is greater than 0,
    counting from [index]. *)
Fixpoint firstPositiveNumber (numbers : list Z) (index : nat) : option nat :=
  match numbers with
  | [] => None
  | n :: rest => if 0 <? n then Some index else firstPositiveNumber rest (S index)
  end.

(** The scan and the [forEach] of [updateTime] run on a breakdown of which
    only the outcome of each test [0 < remaining] is given: the child nodes
    they leave, and the highest non-zero index. *)
Definition scanAndShow (settings : Settings) (positive : list bool)
    (timer : Timer) : list Node * option nat :=
  let entries :=
    combine intervals
      (map (fun b : bool => if b then VNum 1 else VNum 0) positive) in
  let '(timer1, highestNonzero) :=
    findHighestNonzero settings entries 0 timer None in
  match highestNonzero with
  | Some i => (children (showHighest settings intervals 0 i timer1), Some i)
  | None => (children timer1, None)
  end.

(** The position of an interval in [intervals] (and of its number in a
    breakdown). *)
Definition positionOf (u : Unit) : nat :=
  match u with
  | Years => 0 | Weeks => 1 | Days => 2
  | Hours => 3 | Minutes => 4 | Seconds => 5
  end.

(** The session [createTimer] leaves for one element. *)
Definition sessionOf (getFullYear : Z -> Z) (settings : Settings) (e : Target)
    : Session :=
  fst (createTimer getFullYear settings (parsedTime e) (atCreate e)
         (firstClock e) (intervalHandle e)).

(** The target of an element is already reached when its first update
    reads the clock. *)
Definition reachedAtSetup (e : Target) : bool :=
  effectiveTime e - atUpdate (firstClock e) <=? 0.

(** The hooks a timer invokes while its interval fires at [clocks]: a tick
    for every firing before the target is reached, then the end hook once,
    then nothing. *)
Fixpoint hooksUntilEnd (settings : Settings) (time : Z) (clocks : list Clock)
    : list Event :=
  match clocks with
  | [] => []
  | c :: rest =>
      if time - atUpdate c <=? 0 then
        if onEnd settings then [EndHook time] else []
      else
        (if onTick settings then [TickHook time (time - atUpdate c)] else [])
        ++ hooksUntilEnd settings time rest
  end.

(** The hooks of a timer that never ends: a tick for every firing. *)
Definition tickHooks (settings : Settings) (time : Z) (clocks : list Clock)
    : list Event :=
  if onTick settings
  then map (fun c => TickHook time (time - atUpdate c)) clocks
  else [].

(** The duration the six numbers of a breakdown stand for when a year is
    counted as [daysPerYear] days, in milliseconds. *)
Definition spanOf (daysPerYear : Z) (numbers : list Z) : Z :=
  match numbers with
  | [y; w; d; h; m; s] =>
      (daysPerYear * y + 7 * w + d) * msPerDay
      + h * msPerHour + m * msPerMinute + s * msPerSecond
  | _ => 0
  end.

(** ** Running a [while] loop to completion *)

(** [WhileRuns guard body st st']: executing [while ( guard ) body] from
    the state [st] terminates, in the state [st']. *)
Inductive WhileRuns {S : Type} (guard : S -> bool) (body : S -> S)
    : S -> S -> Prop :=
| WhileExit (st : S) :
    guard st = false -> WhileRuns guard body st st
| WhileIter (st st' : S) :
    guard st = true ->
    WhileRuns guard body (body st) st' ->
    WhileRuns guard body st st'.

(** * Properties *)

(** ** The leap-year predicate *)

Lemma rem_zero_divide (year d : Z) :
  d <> 0 -> (0 =? Z.rem year d) = true <-> (d | year).
Proof.
  intros Hd. rewrite Z.eqb_eq. split; intros H.
  - apply Z.rem_divide; auto.
  - symmetry. apply Z.rem_divide; auto.
Qed.

Lemma rem_nonzero_not_divide (year d : Z) :
  d <> 0 -> (0 =? Z.rem year d) = false <-> ~ (d | year).
Proof.
  intros Hd. rewrite <- (rem_zero_divide year d Hd).
  destruct (0 =? Z.rem year d); split; congruence.
Qed.

(** C9. For every integer year, [isLeapYear] answers true exactly when the
    year is divisible by 400, or divisible by 4 and not by 100; 2000 and
    2024 are leap years, 1900 and 2023 are not. *)
Theorem isLeapYear_gregorian :
  (forall year : Z,
      isLeapYear year = true <->
      ((400 | year) \/ ((4 | year) /\ ~ (100 | year))))
  /\ isLeapYear 2000 = true /\ isLeapYear 2024 = true
  /\ isLeapYear 1900 = false /\ isLeapYear 2023 = false.
Proof.
  split; [ | repeat split; reflexivity ].
  intros year. unfold isLeapYear.
  destruct (0 =? Z.rem year 100) eqn:H100.
  - apply rem_zero_divide in H100; [ | lia ].
    rewrite rem_zero_divide by lia. split.
    + intros H400. now left.
    + intros [H400 | [_ Hn]]; [ assumption | contradiction ].
  - apply rem_nonzero_not_divide in H100; [ | lia ].
    rewrite rem_zero_divide by lia. split.
    + intros H4. right. now split.
    + intros [H400 | [H4 _]]; [ | assumption ].
      exfalso. apply H100.
      apply Z.divide_trans with (m := 400); [ | assumption ].
      exists 4. reflexivity.
Qed.

(** ** Termination of the loops of [formatDiff] *)

Lemma WhileRuns_deterministic {S : Type} (guard : S -> bool) (body : S -> S)
    (st a b : S) :
  WhileRuns guard body st a -> WhileRuns guard body st b -> a = b.
Proof.
  intros Ha. revert b.
  induction Ha as [st Hg | st st' Hg _ IH]; intros b Hb;
    inversion Hb; subst; try congruence.
  now apply IH.
Qed.

Lemma yearLoopGuard_days (finalYear : Z) (st : YearLoop) :
  yearLoopGuard finalYear st = true -> 365 <= yl_days st.
Proof.
  unfold yearLoopGuard. intros H.
  apply andb_true_iff in H. destruct H as [_ H]. lia.
Qed.

Lemma yearLoopBody_days (isNegative : bool) (st : YearLoop) :
  yl_days st - 366 <= yl_days (yearLoopBody isNegative st) <= yl_days st - 365.
Proof.
  unfold yearLoopBody; simpl. destruct (isLeapYear (yl_yearToCheck st)); lia.
Qed.

Lemma yearLoop_runs (isNegative : bool) (finalYear : Z) (fuel : nat) :
  forall st : YearLoop,
    yl_days st < 365 * Z.of_nat fuel + 365 ->
    WhileRuns (yearLoopGuard finalYear) (yearLoopBody isNegative) st
      (yearLoop fuel isNegative finalYear st).
Proof.
  induction fuel as [ | fuel IH]; intros st Hlt; simpl.
  - apply WhileExit.
    destruct (yearLoopGuard finalYear st) eqn:Hg; [ | reflexivity ].
    apply yearLoopGuard_days in Hg. lia.
  - destruct (yearLoopGuard finalYear st) eqn:Hg.
    + apply WhileIter; [ assumption | ].
      apply IH. pose proof (yearLoopBody_days isNegative st). lia.
    + now apply WhileExit.
Qed.

Lemma loopFuel_enough (k days : Z) :
  0 < k -> days < k * Z.of_nat (loopFuel days) + k.
Proof.
  intros Hk. unfold loopFuel.
  destruct (Z.le_gt_cases 0 days) as [Hpos | Hneg].
  - rewrite Z2Nat.id by assumption. nia.
  - destruct days; lia.
Qed.

Lemma weekLoop_runs (fuel : nat) :
  forall st : WeekLoop,
    wl_days st < 7 * Z.of_nat fuel + 7 ->
    WhileRuns weekLoopGuard weekLoopBody st (weekLoop fuel st).
Proof.
  induction fuel as [ | fuel IH]; intros st Hlt; simpl.
  - apply WhileExit. unfold weekLoopGuard. lia.
  - destruct (weekLoopGuard st) eqn:Hg.
    + apply WhileIter; [ assumption | ].
      apply IH. unfold weekLoopGuard in Hg. unfold weekLoopBody.
      destruct (52 <=? wl_weeks st + 1); cbn [wl_days]; lia.
    + now apply WhileExit.
Qed.

(** C8. The year-extraction loop of [formatDiff] terminates for every
    delta, target and reference year: a pass is only made with [days] at
    least 365 and takes at least 365 away; hence the loop terminates from
    every state, the week loop after it does too, and the values
    [formatDiff] works with are the final states of the two loops. *)
Theorem formatDiff_loops_terminate :
  forall (getFullYear : Z -> Z) (milliseconds time now : Z),
    let isNegative := milliseconds <? 0 in
    let finalYear := getFullYear time in
    let days := Z.abs milliseconds / msPerDay in
    let start :=
      {| yl_years := 0; yl_days := days; yl_yearToCheck := getFullYear now |} in
    let afterYears := yearLoop (loopFuel days) isNegative finalYear start in
    let startWeeks :=
      {| wl_years := yl_years afterYears; wl_weeks := 0;
         wl_days := yl_days afterYears |} in
    let afterWeeks := weekLoop (loopFuel (yl_days afterYears)) startWeeks in
    (forall st : YearLoop,
        yearLoopGuard finalYear st = true ->
        365 <= yl_days st /\
        yl_days (yearLoopBody isNegative st) <= yl_days st - 365)
    /\ (forall st : YearLoop,
           exists st', WhileRuns (yearLoopGuard finalYear)
                         (yearLoopBody isNegative) st st')
    /\ WhileRuns (yearLoopGuard finalYear) (yearLoopBody isNegative)
         start afterYears
    /\ (forall st : WeekLoop,
           exists st', WhileRuns weekLoopGuard weekLoopBody st st')
    /\ WhileRuns weekLoopGuard weekLoopBody startWeeks afterWeeks
    /\ firstn 3 (formatDiffNumbers getFullYear milliseconds time now)
       = [wl_years afterWeeks; wl_weeks afterWeeks; wl_days afterWeeks].
Proof.
  intros getFullYear milliseconds time now isNegative finalYear days start
    afterYears startWeeks afterWeeks.
  repeat split.
  - now apply yearLoopGuard_days with (finalYear := finalYear).
  - apply yearLoopBody_days.
  - intros st. exists (yearLoop (loopFuel (yl_days st)) isNegative finalYear st).
    apply yearLoop_runs. apply loopFuel_enough. lia.
  - apply yearLoop_runs. apply (loopFuel_enough 365 days). lia.
  - intros st. exists (weekLoop (loopFuel (wl_days st)) st).
    apply weekLoop_runs. apply loopFuel_enough. lia.
  - apply weekLoop_runs. apply (loopFuel_enough 7 (yl_days afterYears)). lia.
Qed.

(** ** Ranges of the numbers [formatDiff] computes *)

Lemma WhileRuns_exit {S : Type} (guard : S -> bool) (body : S -> S)
    (st st' : S) :
  WhileRuns guard body st st' -> guard st' = false.
Proof. induction 1; assumption. Qed.

Lemma yearLoop_range (isNegative : bool) (finalYear : Z) (fuel : nat) :
  forall st : YearLoop,
    0 <= yl_years st -> -1 <= yl_days st ->
    0 <= yl_years (yearLoop fuel isNegative finalYear st)
    /\ -1 <= yl_days (yearLoop fuel isNegative finalYear st).
Proof.
  induction fuel as [ | fuel IH]; intros st Hy Hd; simpl; [ now split | ].
  destruct (yearLoopGuard finalYear st) eqn:Hg; [ | now split ].
  apply yearLoopGuard_days in Hg.
  pose proof (yearLoopBody_days isNegative st).
  apply IH; [ unfold yearLoopBody; simpl | ]; lia.
Qed.

Lemma weekLoop_range (fuel : nat) :
  forall st : WeekLoop,
    0 <= wl_years st -> 0 <= wl_weeks st < 52 -> -1 <= wl_days st ->
    0 <= wl_years (weekLoop fuel st)
    /\ 0 <= wl_weeks (weekLoop fuel st) < 52
    /\ -1 <= wl_days (weekLoop fuel st).
Proof.
  induction fuel as [ | fuel IH]; intros st Hy Hw Hd; simpl; [ now repeat split | ].
  destruct (weekLoopGuard st) eqn:Hg; [ | now repeat split ].
  unfold weekLoopGuard in Hg. unfold weekLoopBody.
  destruct (52 <=? wl_weeks st + 1) eqn:H52;
    apply IH; cbn [wl_years wl_weeks wl_days]; lia.
Qed.

Lemma clock_field_range (a per unit : Z) :
  0 <= a -> 0 < unit -> 0 < per ->
  0 <= Z.rem a (per * unit) / unit < per.
Proof.
  intros Ha Hu Hp.
  assert (Hr : 0 <= Z.rem a (per * unit) < per * unit)
    by (apply Z.rem_bound_pos; nia).
  split.
  - apply Z.div_pos; lia.
  - apply Z.div_lt_upper_bound; nia.
Qed.

(** What does hold of every breakdown: all the ranges of the design
    document except the lower bound of days, which is -1 instead of 0. *)
Lemma formatDiffNumbers_ranges (getFullYear : Z -> Z)
    (milliseconds time now : Z) :
  exists y w d h m s : Z,
    formatDiffNumbers getFullYear milliseconds time now = [y; w; d; h; m; s]
    /\ 0 <= y /\ 0 <= w < 52 /\ -1 <= d < 7
    /\ 0 <= h < 24 /\ 0 <= m < 60 /\ 0 <= s < 60.
Proof.
  unfold formatDiffNumbers.
  set (isNegative := milliseconds <? 0).
  set (days := Z.abs milliseconds / msPerDay).
  set (start := {| yl_years := 0; yl_days := days;
                   yl_yearToCheck := getFullYear now |}).
  set (afterYears := yearLoop (loopFuel days) isNegative (getFullYear time) start).
  set (startWeeks := {| wl_years := yl_years afterYears; wl_weeks := 0;
                        wl_days := yl_days afterYears |}).
  set (afterWeeks := weekLoop (loopFuel (yl_days afterYears)) startWeeks).
  assert (Hdays : 0 <= days)
    by (apply Z.div_pos; [ apply Z.abs_nonneg | reflexivity ]).
  destruct (yearLoop_range isNegative (getFullYear time) (loopFuel days) start)
    as [Hy Hd]; [ simpl; lia | simpl; lia | ].
  fold afterYears in Hy, Hd.
  destruct (weekLoop_range (loopFuel (yl_days afterYears)) startWeeks)
    as (Hy' & Hw' & Hd'); [ simpl; lia | simpl; lia | simpl; lia | ].
  fold afterWeeks in Hy', Hw', Hd'.
  assert (Hexit : weekLoopGuard afterWeeks = false).
  { apply (WhileRuns_exit weekLoopGuard weekLoopBody startWeeks).
    apply weekLoop_runs. apply (loopFuel_enough 7 (yl_days afterYears)). lia. }
  unfold weekLoopGuard in Hexit.
  do 6 eexists. split; [ reflexivity | ].
  pose proof (Z.abs_nonneg milliseconds) as Habs.
  repeat split; try lia.
  - apply (clock_field_range (Z.abs milliseconds) 24 msPerHour); [ lia | reflexivity | lia ].
  - apply (clock_field_range (Z.abs milliseconds) 24 msPerHour); [ lia | reflexivity | lia ].
  - apply (clock_field_range (Z.abs milliseconds) 60 msPerMinute); [ lia | reflexivity | lia ].
  - apply (clock_field_range (Z.abs milliseconds) 60 msPerMinute); [ lia | reflexivity | lia ].
  - apply (clock_field_range (Z.abs milliseconds) 60 msPerSecond); [ lia | reflexivity | lia ].
  - apply (clock_field_range (Z.abs milliseconds) 60 msPerSecond); [ lia | reflexivity | lia ].
Qed.

(** C3. The day count can leave its range: from 2024-03-01 to 2025-03-01
    there are 365 days and the reference year 2024 is a leap year, so the
    year loop runs once with [days = 365], takes 366 away, and the
    breakdown is 1 year, 0 weeks, -1 days. *)
Theorem formatDiff_days_below_zero :
  utcFullYear march_1_2024 = 2024 /\ utcFullYear march_1_2025 = 2025
  /\ march_1_2025 - march_1_2024 = 365 * msPerDay
  /\ formatDiffNumbers utcFullYear (march_1_2025 - march_1_2024)
       march_1_2025 march_1_2024 = [1; 0; -1; 0; 0; 0]
  /\ formatDiff utcFullYear defaults (march_1_2025 - march_1_2024)
       march_1_2025 march_1_2024
     = [VNum 1; VNum 0; VNum (-1); VNum 0; VNum 0; VNum 0].
Proof. repeat split; vm_compute; reflexivity. Qed.

(** ** Expiry: the branch [0 >= diff && ! allowNegative] of [updateTime] *)

Section Expiry.

Variable getFullYear : Z -> Z.
Variable settings : Settings.
Variable time : Z.

(** While [repeat] is uninitialised, an expired call throws after the
    display was zeroed and before anything else happens. *)
Lemma updateTime_expired_unbound (clock : Clock) (s : Session) :
  allowNegative settings = false ->
  time - atUpdate clock <= 0 ->
  repeat s = None ->
  updateTime getFullYear settings time clock s
  = (withTimer s (expiredTimer getFullYear settings time clock (element s)), ReferenceError).
Proof.
  intros Hneg Hdiff Hrep. unfold updateTime, expiredTimer.
  generalize (fst (resolve getFullYear settings time clock (element s))).
  intros timer1.
  rewrite Hneg. replace (time - atUpdate clock <=? 0) with true by lia.
  cbn [andb negb repeat withTimer]. rewrite Hrep. reflexivity.
Qed.

(** Once [repeat] holds the handle, an expired call clears the interval
    and invokes [onEnd] (when there is one). *)
Lemma updateTime_expired_bound (clock : Clock) (s : Session) (handle : Z) :
  allowNegative settings = false ->
  time - atUpdate clock <= 0 ->
  repeat s = Some handle ->
  handle <> 0 ->
  updateTime getFullYear settings time clock s
  = ({| element := expiredTimer getFullYear settings time clock (element s);
        repeat := Some handle;
        scheduled := false;
        events := events s ++ (if onEnd settings then [EndHook time] else []) |},
     Normal).
Proof.
  intros Hneg Hdiff Hrep Hh. unfold updateTime, expiredTimer.
  generalize (fst (resolve getFullYear settings time clock (element s))).
  intros timer1.
  rewrite Hneg. replace (time - atUpdate clock <=? 0) with true by lia.
  cbn [andb negb repeat withTimer]. rewrite Hrep.
  replace (handle =? 0) with false by lia. cbn [negb].
  destruct (onEnd settings); unfold logEvent; cbn;
    rewrite ?app_nil_r; reflexivity.
Qed.

(** A call that is not expired completes normally and leaves the
    interval as it was. *)
Lemma updateTime_running (clock : Clock) (s : Session) :
  (time - atUpdate clock <=? 0) && negb (allowNegative settings) = false ->
  snd (updateTime getFullYear settings time clock s) = Normal
  /\ scheduled (fst (updateTime getFullYear settings time clock s)) = scheduled s
  /\ repeat (fst (updateTime getFullYear settings time clock s)) = repeat s.
Proof.
  intros H. unfold updateTime. rewrite H.
  destruct (onTick settings); repeat split.
Qed.

(** Nothing runs once the interval was cleared (or never installed). *)
Lemma run_unscheduled (clocks : list Clock) (s : Session) :
  scheduled s = false -> run getFullYear settings time clocks s = s.
Proof.
  intros H. unfold run. induction clocks as [ | c clocks IH]; simpl.
  - reflexivity.
  - unfold fire at 2. rewrite H. exact IH.
Qed.

(** [startTimer] on a target that is already reached. *)
Lemma startTimer_expired (clock : Clock) (handle : Z) (timer : Timer)
    (log : list Event) :
  allowNegative settings = false ->
  time - atUpdate clock <= 0 ->
  startTimer getFullYear settings time clock handle timer log
  = ({| element := expiredTimer getFullYear settings time clock timer; repeat := None;
        scheduled := false; events := log |}, ReferenceError).
Proof.
  intros Hneg Hdiff. unfold startTimer.
  rewrite updateTime_expired_unbound by (assumption || reflexivity).
  reflexivity.
Qed.

(** [startTimer] on a target that is not reached, or with negative
    values allowed: the interval is installed. *)
Lemma startTimer_running (clock : Clock) (handle : Z) (timer : Timer)
    (log : list Event) :
  (time - atUpdate clock <=? 0) && negb (allowNegative settings) = false ->
  snd (startTimer getFullYear settings time clock handle timer log) = Normal
  /\ scheduled (fst (startTimer getFullYear settings time clock handle timer log)) = true
  /\ repeat (fst (startTimer getFullYear settings time clock handle timer log)) = Some handle.
Proof.
  intros H. unfold startTimer.
  destruct (updateTime_running clock
              {| element := timer; repeat := None; scheduled := false;
                 events := log |} H) as (Hc & _ & _).
  destruct (updateTime getFullYear settings time clock _) as [s1 c].
  simpl in Hc. subst c. repeat split.
Qed.

End Expiry.

(** ** What [updateDisplay] writes *)

Lemma Unit_eqb_eq (a b : Unit) : Unit_eqb a b = true <-> a = b.
Proof. destruct a, b; simpl; split; intros H; congruence. Qed.

Lemma Unit_eqb_refl (a : Unit) : Unit_eqb a a = true.
Proof. now apply Unit_eqb_eq. Qed.

Lemma Unit_eqb_neq (a b : Unit) : Unit_eqb a b = false <-> a <> b.
Proof.
  rewrite <- Unit_eqb_eq. destruct (Unit_eqb a b); split; congruence.
Qed.

Lemma updateDisplay_children (timer : Timer) (u : Unit) (v : value) (l : Label) :
  children (updateDisplay timer u v l) = children timer.
Proof. unfold updateDisplay. now destruct (contains timer u). Qed.

Lemma updateDisplay_contains (timer : Timer) (u w : Unit) (v : value) (l : Label) :
  contains (updateDisplay timer u v l) w = contains timer w.
Proof. unfold contains. now rewrite updateDisplay_children. Qed.

Lemma updateDisplay_content_other (timer : Timer) (u w : Unit) (v : value)
    (l : Label) :
  u <> w -> content (updateDisplay timer u v l) w = content timer w.
Proof.
  intros Hne. unfold updateDisplay.
  destruct (contains timer u); [ | reflexivity ].
  cbn [content setContent]. unfold update.
  apply Unit_eqb_neq in Hne. now rewrite Hne.
Qed.

Lemma updateDisplay_content_same (timer : Timer) (u : Unit) (v : value)
    (l : Label) :
  contains timer u = true ->
  content (updateDisplay timer u v l) u
  = Some (toString v ++ " " ++ unitsFor v l)%string.
Proof.
  intros Hc. unfold updateDisplay. rewrite Hc.
  cbn [content setContent]. unfold update. now rewrite Unit_eqb_refl.
Qed.

Lemma updateDisplays_children (settings : Settings)
    (entries : list (Unit * value)) :
  forall timer, children (updateDisplays settings entries timer) = children timer.
Proof.
  induction entries as [ | [u v] rest IH]; intros timer; simpl.
  - reflexivity.
  - rewrite IH. apply updateDisplay_children.
Qed.

Lemma updateDisplays_content_skip (settings : Settings)
    (entries : list (Unit * value)) (w : Unit) :
  forall timer,
    ~ In w (map fst entries) ->
    content (updateDisplays settings entries timer) w = content timer w.
Proof.
  induction entries as [ | [u v] rest IH]; intros timer Hnot; simpl.
  - reflexivity.
  - rewrite IH by (intros Hin; apply Hnot; now right).
    apply updateDisplay_content_other.
    intros ->. apply Hnot. now left.
Qed.

Lemma updateDisplays_content_in (settings : Settings)
    (entries : list (Unit * value)) (w : Unit) (v : value) :
  forall timer,
    NoDup (map fst entries) ->
    In (w, v) entries ->
    contains timer w = true ->
    content (updateDisplays settings entries timer) w
    = Some (toString v ++ " " ++ unitsFor v (labelOf settings w))%string.
Proof.
  induction entries as [ | [u x] rest IH]; intros timer Hnd Hin Hc; simpl.
  - contradiction.
  - inversion Hnd as [ | ? ? Hnotin Hnd']; subst.
    destruct Hin as [Heq | Hin].
    + inversion Heq; subst.
      rewrite updateDisplays_content_skip by assumption.
      now apply updateDisplay_content_same.
    + apply IH; [ assumption | assumption | ].
      now rewrite updateDisplay_contains.
Qed.

Lemma intervals_NoDup : NoDup intervals.
Proof.
  unfold intervals.
  repeat (constructor; [ simpl; intuition discriminate | ]). constructor.
Qed.

(** After the six [updateDisplay( timer, interval, 0, label )] calls, every
    interval that is in the timer reads "0" and its plural label. *)
Lemma zeroes_displayed (settings : Settings) (timer : Timer) (u : Unit) :
  contains timer u = true ->
  content (updateDisplays settings (combine intervals zeroes) timer) u
  = Some ("0 " ++ plural (labelOf settings u))%string.
Proof.
  intros Hc.
  rewrite (updateDisplays_content_in settings _ u (VNum 0)).
  - reflexivity.
  - replace (map fst (combine intervals zeroes)) with intervals by reflexivity.
    exact intervals_NoDup.
  - destruct u; simpl; tauto.
  - assumption.
Qed.

Lemma expiredTimer_zeroes (getFullYear : Z -> Z) (settings : Settings)
    (time : Z) (clock : Clock) (timer : Timer) (u : Unit) :
  contains (expiredTimer getFullYear settings time clock timer) u = true ->
  content (expiredTimer getFullYear settings time clock timer) u
  = Some ("0 " ++ plural (labelOf settings u))%string.
Proof.
  unfold expiredTimer.
  generalize (fst (resolve getFullYear settings time clock timer)).
  intros timer1 Hc. apply zeroes_displayed.
  unfold contains in *. now rewrite updateDisplays_children in Hc.
Qed.

(** ** The scheduler *)

(** X20. An expiry that the interval (not the first call) runs into: every
    interval element still in the timer reads "0" and its plural label,
    the interval is cleared, [onEnd] is invoked once (when there is one),
    and whatever the host does afterwards changes nothing. *)
Lemma expiry_on_later_tick (getFullYear : Z -> Z) (settings : Settings)
    (time : Z) (clock : Clock) (handle : Z) (s : Session) :
  allowNegative settings = false ->
  time - atUpdate clock <= 0 ->
  repeat s = Some handle -> handle <> 0 -> scheduled s = true ->
  let s' := fire getFullYear settings time s clock in
  (forall u, contains (element s') u = true ->
             content (element s') u
             = Some ("0 " ++ plural (labelOf settings u))%string)
  /\ scheduled s' = false
  /\ events s' = events s ++ (if onEnd settings then [EndHook time] else [])
  /\ (forall clocks, run getFullYear settings time clocks s' = s').
Proof.
  intros Hneg Hdiff Hrep Hh Hsch s'. subst s'. unfold fire. rewrite Hsch.
  rewrite (updateTime_expired_bound getFullYear settings time clock s handle)
    by assumption.
  cbn [fst element scheduled events]. repeat split.
  - intros u Hc. now apply expiredTimer_zeroes.
  - intros clocks. now apply run_unscheduled.
Qed.

Lemma updateTime_running_events (getFullYear : Z -> Z) (settings : Settings)
    (time : Z) (clock : Clock) (s : Session) :
  (time - atUpdate clock <=? 0) && negb (allowNegative settings) = false ->
  events (fst (updateTime getFullYear settings time clock s))
  = events s ++ (if onTick settings
                 then [TickHook time (time - atUpdate clock)] else []).
Proof.
  intros H. unfold updateTime. rewrite H.
  destruct (onTick settings); cbn; rewrite ?app_nil_r; reflexivity.
Qed.

(** Over any sequence of firings of an installed interval, [onEnd] is
    invoked once if some firing finds the target reached and not at all
    otherwise, and the interval stays cleared from that firing on. *)
Lemma later_expiry_ends_exactly_once (getFullYear : Z -> Z)
    (settings : Settings) (time handle : Z) (clocks : list Clock) :
  allowNegative settings = false ->
  onEnd settings = true ->
  handle <> 0 ->
  forall s : Session,
    repeat s = Some handle ->
    scheduled s = true ->
    count_occ Event_eq_dec (events s) (EndHook time) = 0%nat ->
    let reached := existsb (fun c => time - atUpdate c <=? 0) clocks in
    let s' := run getFullYear settings time clocks s in
    count_occ Event_eq_dec (events s') (EndHook time)
    = (if reached then 1%nat else 0%nat)
    /\ scheduled s' = negb reached.
Proof.
  intros Hneg Hend Hh.
  induction clocks as [ | c clocks IH]; intros s Hrep Hsch Hcount; cbn zeta.
  - simpl. now split.
  - cbn [existsb]. unfold run. cbn [fold_left].
    fold (run getFullYear settings time clocks
            (fire getFullYear settings time s c)).
    unfold fire. rewrite Hsch.
    destruct (time - atUpdate c <=? 0) eqn:Hdiff; cbn [orb].
    + rewrite (updateTime_expired_bound getFullYear settings time c s handle)
        by (assumption || lia).
      cbn [fst]. rewrite run_unscheduled by reflexivity.
      cbn [events scheduled]. rewrite Hend, count_occ_app, Hcount.
      rewrite (count_occ_cons_eq Event_eq_dec [] (eq_refl (EndHook time))).
      now split.
    + assert (Hrun : (time - atUpdate c <=? 0) && negb (allowNegative settings)
                     = false) by (rewrite Hdiff; reflexivity).
      destruct (updateTime_running getFullYear settings time c s Hrun)
        as (_ & Hsch' & Hrep').
      apply IH.
      * now rewrite Hrep'.
      * now rewrite Hsch'.
      * rewrite (updateTime_running_events getFullYear settings time c s Hrun).
        rewrite count_occ_app, Hcount.
        destruct (onTick settings); [ | reflexivity ].
        rewrite count_occ_cons_neq by discriminate. reflexivity.
Qed.

(** C10. With [allowNegative] off and the target already reached when the
    timer starts, the first [updateTime] of [startTimer] reads [repeat]
    before its initialisation and throws: no hook was invoked ([onEnd]
    included), [repeat] is still unbound, the interval was never installed
    and nothing will ever run for this timer. *)
Theorem first_update_reads_unbound_repeat :
  forall (getFullYear : Z -> Z) (settings : Settings) (time : Z)
         (clock : Clock) (handle : Z) (timer : Timer) (log : list Event),
    allowNegative settings = false ->
    time - atUpdate clock <= 0 ->
    let r := startTimer getFullYear settings time clock handle timer log in
    snd r = ReferenceError
    /\ repeat (fst r) = None
    /\ events (fst r) = log
    /\ scheduled (fst r) = false
    /\ (forall clocks, run getFullYear settings time clocks (fst r) = fst r).
Proof.
  intros getFullYear settings time clock handle timer log Hneg Hdiff r.
  subst r. rewrite startTimer_expired by assumption.
  cbn [fst snd]. repeat split.
  intros clocks. now apply run_unscheduled.
Qed.

Lemma first_update_reads_unbound_repeat_witness :
  allowNegative withHooks = false
  /\ march_1_2024 - atUpdate (mkClock march_1_2024 march_1_2024) <= 0
  /\ (let r := startTimer utcFullYear withHooks march_1_2024
                 (mkClock march_1_2024 march_1_2024) 1
                 (createdTimer withHooks) [] in
      snd r = ReferenceError
      /\ repeat (fst r) = None
      /\ events (fst r) = []
      /\ scheduled (fst r) = false
      /\ (forall clocks, run utcFullYear withHooks march_1_2024 clocks (fst r)
                         = fst r)).
Proof.
  split; [ reflexivity | ]. split; [ simpl; lia | ].
  apply (first_update_reads_unbound_repeat utcFullYear withHooks march_1_2024
           (mkClock march_1_2024 march_1_2024) 1 (createdTimer withHooks) []);
    [ reflexivity | simpl; lia ].
Defined.

(** C1. A timer created at its target instant, with an [onEnd] hook and
    [allowNegative] off: the display is zeroed, but the call ends in the
    [ReferenceError] and [onEnd] was not invoked (the only event is the
    [onCreate] hook). *)
Theorem expired_at_creation_never_ends :
  let r := createTimer utcFullYear withHooks (Some march_1_2024) 0
             (mkClock march_1_2024 march_1_2024) 1 in
  snd r = ReferenceError
  /\ events (fst r) = [CreateHook march_1_2024]
  /\ count_occ Event_eq_dec (events (fst r)) (EndHook march_1_2024) = 0%nat
  /\ content (element (fst r)) Seconds = Some "0 seconds"%string.
Proof. repeat split; vm_compute; reflexivity. Qed.

(** The same at the level of [createTimer], for a valid [datetime] that is
    not in the future. *)
Lemma createTimer_expired (getFullYear : Z -> Z) (settings : Settings)
    (t atCreate : Z) (clock : Clock) (handle : Z) :
  allowNegative settings = false ->
  t <> 0 ->
  t - atUpdate clock <= 0 ->
  let r := createTimer getFullYear settings (Some t) atCreate clock handle in
  snd r = ReferenceError
  /\ events (fst r) = (if onCreate settings then [CreateHook t] else [])
  /\ scheduled (fst r) = false.
Proof.
  intros Hneg Ht Hdiff r. subst r. unfold createTimer, invalidTime.
  replace (t =? 0) with false by lia.
  unfold createElements. rewrite startTimer_expired by assumption.
  cbn [fst snd events scheduled]. repeat split.
Qed.

(** ** Creation with a missing or invalid [datetime] *)

(** The recovery itself: the error is logged and the clock reading is the
    target from then on. *)
Lemma createTimer_invalid_time (getFullYear : Z -> Z) (settings : Settings)
    (parsed : option Z) (atCreate : Z) (clock : Clock) (handle : Z) :
  invalidTime parsed = true ->
  createTimer getFullYear settings parsed atCreate clock handle
  = createElements getFullYear settings atCreate clock handle
      (ConsoleError :: (if onCreate settings then [CreateHook atCreate] else [])).
Proof.
  intros Hinv. unfold createTimer. rewrite Hinv.
  destruct parsed; destruct (onCreate settings); reflexivity.
Qed.

(** With [allowNegative] on, the creation completes normally. *)
Lemma createTimer_invalid_allowNegative (getFullYear : Z -> Z)
    (settings : Settings) (parsed : option Z) (atCreate : Z) (clock : Clock)
    (handle : Z) :
  invalidTime parsed = true ->
  allowNegative settings = true ->
  snd (createTimer getFullYear settings parsed atCreate clock handle) = Normal.
Proof.
  intros Hinv Hneg. rewrite createTimer_invalid_time by assumption.
  unfold createElements. apply startTimer_running.
  rewrite Hneg. apply andb_false_r.
Qed.

(** With [allowNegative] off and a clock that does not run backwards, the
    substituted target is already reached and the creation throws. *)
Lemma createTimer_invalid_expired (getFullYear : Z -> Z)
    (settings : Settings) (parsed : option Z) (atCreate : Z) (clock : Clock)
    (handle : Z) :
  invalidTime parsed = true ->
  allowNegative settings = false ->
  atCreate <= atUpdate clock ->
  snd (createTimer getFullYear settings parsed atCreate clock handle)
  = ReferenceError.
Proof.
  intros Hinv Hneg Hclock. rewrite createTimer_invalid_time by assumption.
  unfold createElements. rewrite startTimer_expired by (assumption || lia).
  reflexivity.
Qed.

(** C7. A timer without a [datetime] (the parsed time is [NaN], or the
    falsy 0 of [new Date( null )]) under the default settings: the error is
    logged and the current time substituted, and then the creation throws
    the [ReferenceError] to its caller. *)
Theorem missing_datetime_throws :
  let r := createTimer utcFullYear defaults None march_1_2024
             (mkClock march_1_2024 march_1_2024) 1 in
  let r0 := createTimer utcFullYear defaults (Some 0) march_1_2024
              (mkClock march_1_2024 march_1_2024) 1 in
  events (fst r) = [ConsoleError] /\ snd r = ReferenceError
  /\ events (fst r0) = [ConsoleError] /\ snd r0 = ReferenceError.
Proof. repeat split; vm_compute; reflexivity. Qed.

(** ** Labels: [pad] against the test of [updateDisplay] *)

Lemma toNumber_pad (settings : Settings) (n : Z) :
  0 <= n -> toNumber (pad settings n) = Some n.
Proof.
  intros Hn. unfold pad.
  destruct (padValues settings); [ | reflexivity ].
  destruct (n <? 10) eqn:Hlt; [ | reflexivity ].
  assert (Hdigit : exists k : nat, (k < 10)%nat /\ n = Z.of_nat k)
    by (exists (Z.to_nat n); lia).
  destruct Hdigit as (k & Hk & ->).
  do 10 (destruct k as [ | k]; [ reflexivity | ]). lia.
Qed.

(** X9. Where the label rule holds: for every non-negative value, except
    a zero that [pad] has turned into the string "00", [updateDisplay]
    picks the singular label for 1 and the plural label otherwise. *)
Lemma unitsFor_pad (settings : Settings) (n : Z) (label : Label) :
  0 <= n ->
  padValues settings = false \/ n <> 0 ->
  unitsFor (pad settings n) label
  = if n =? 1 then singular label else plural label.
Proof.
  intros Hn Hcase. unfold unitsFor, numLt.
  rewrite toNumber_pad by assumption.
  destruct (1 <? n) eqn:H1.
  - replace (n =? 1) with false by lia. reflexivity.
  - unfold pad. destruct (padValues settings) eqn:Hpad.
    + destruct Hcase as [Hcase | Hcase]; [ discriminate | ].
      replace (n <? 10) with true by lia. cbn [numStrictEq orb].
      replace (n =? 1) with true by lia. reflexivity.
    + cbn [numStrictEq orb].
      destruct (Z.eq_dec n 0) as [-> | Hn0]; [ reflexivity | ].
      replace (0 =? n) with false by lia.
      replace (n =? 1) with true by lia. reflexivity.
Qed.

(** C6. With [padValues], a zero is padded to the string "00" before
    [updateDisplay] sees it; the string is neither greater than 1 nor
    strictly equal to 0, so the singular label is chosen: one minute before
    the target the seconds read "00 second". *)
Theorem padded_zero_gets_singular :
  pad padded 0 = VStr "00"
  /\ unitsFor (pad padded 0) (seconds padded) = "second"%string
  /\ nth 5 (formatDiffNumbers utcFullYear 60000 (march_1_2024 + 60000)
              march_1_2024) 1 = 0
  /\ content
       (element
          (fst (createTimer utcFullYear padded (Some (march_1_2024 + 60000)) 0
                  (mkClock march_1_2024 march_1_2024) 1))) Seconds
     = Some "00 second"%string.
Proof. repeat split; vm_compute; reflexivity. Qed.

(** ** The scan for the highest non-zero interval *)

Lemma numLt_truthy (v : value) : numLt 0 v = true -> toBoolean v = true.
Proof.
  destruct v as [n | s]; unfold numLt; simpl.
  - intros H. replace (n =? 0) with false by lia. reflexivity.
  - destruct s; simpl; [ discriminate | reflexivity ].
Qed.

(** The scan stops at the first of the six entries that is greater than 0,
    whatever the settings and the document are. *)
Lemma findHighestNonzero_index (settings : Settings)
    (entries : list (Unit * value)) :
  forall (index : nat) (timer : Timer),
    snd (findHighestNonzero settings entries index timer None)
    = firstPositive (map snd entries) index.
Proof.
  induction entries as [ | [u v] rest IH]; intros index timer; simpl.
  - reflexivity.
  - destruct (numLt 0 v) eqn:Hlt.
    + now rewrite (numLt_truthy v Hlt).
    + destruct (negb (Unit_eqb u Seconds)); simpl; apply IH.
Qed.

Lemma resolve_highestNonzero (getFullYear : Z -> Z) (settings : Settings)
    (time : Z) (clock : Clock) (timer : Timer) :
  snd (resolve getFullYear settings time clock timer)
  = firstPositive
      (formatDiff getFullYear settings (time - atUpdate clock) time
         (atFormat clock)) 0.
Proof.
  unfold resolve.
  set (parsedDiff := formatDiff getFullYear settings (time - atUpdate clock)
                       time (atFormat clock)).
  pose proof (findHighestNonzero_index settings (combine intervals parsedDiff)
                0 timer) as Hscan.
  replace (map snd (combine intervals parsedDiff)) with parsedDiff in Hscan
    by reflexivity.
  rewrite <- Hscan.
  destruct (findHighestNonzero settings (combine intervals parsedDiff) 0 timer None)
    as [timer1 [i | ]]; reflexivity.
Qed.

(** C2. With the years interval not allowed and a target 400 days ahead in
    the next calendar year, the scan still takes the years entry: it is
    the highest non-zero interval, its element is appended to the timer
    and receives text.  Ninety seconds before a target, the element of the
    disallowed interval is marked [aria-hidden]. *)
Theorem disallowed_years_is_scanned :
  let far := march_1_2024 + 400 * msPerDay in
  let near := march_1_2024 + 90000 in
  let clock := mkClock march_1_2024 march_1_2024 in
  allowed (years withoutYears) = false
  /\ contains (createdTimer withoutYears) Years = false
  /\ formatDiffNumbers utcFullYear (far - march_1_2024) far march_1_2024
     = [1; 4; 6; 0; 0; 0]
  /\ snd (resolve utcFullYear withoutYears far clock (createdTimer withoutYears))
     = Some 0%nat
  /\ children (fst (resolve utcFullYear withoutYears far clock
                      (createdTimer withoutYears)))
     = [Interval Weeks; Separator; Interval Days; Separator; Interval Hours;
        Separator; Interval Minutes; Separator; Interval Seconds;
        Interval Years]
  /\ content (element (fst (createTimer utcFullYear withoutYears (Some far) 0
                              clock 1))) Years
     = Some "1 year"%string
  /\ ariaHidden (createdTimer withoutYears) Years = None
  /\ ariaHidden (fst (resolve utcFullYear withoutYears near clock
                        (createdTimer withoutYears))) Years
     = Some true.
Proof. repeat split; vm_compute; reflexivity. Qed.

(** ** Accessibility attributes *)

Lemma showHighest_attributes (settings : Settings) (rest : list Unit)
    (highestNonzero : nat) :
  forall (index : nat) (timer : Timer),
    ariaLive (showHighest settings rest index highestNonzero timer)
    = ariaLive timer
    /\ ariaHidden (showHighest settings rest index highestNonzero timer)
       = ariaHidden timer.
Proof.
  induction rest as [ | u rest IH]; intros index timer; simpl.
  - now split.
  - destruct (IH (S index)
                (let timer1 :=
                   if compact settings && hasPreviousSibling u (children timer)
                   then setChildren timer (dropPreviousSibling u (children timer))
                   else timer in
                 if Nat.eqb highestNonzero index then
                   if negb (contains timer1 u)
                   then setChildren timer1 (children timer1 ++ [Interval u])
                   else timer1
                 else if compact settings && contains timer1 u then
                   setChildren timer1 (dropInterval u (children timer1))
                 else timer1)) as [Hlive Hhidden].
    cbv zeta in Hlive, Hhidden. rewrite Hlive, Hhidden.
    destruct (compact settings && hasPreviousSibling u (children timer));
      destruct (Nat.eqb highestNonzero index);
      repeat match goal with
             | |- context [if ?b then _ else _] => destruct b
             end; now split.
Qed.

(** The scan never touches the [aria-hidden] attribute of the seconds
    element. *)
Lemma findHighestNonzero_seconds_hidden (settings : Settings)
    (entries : list (Unit * value)) :
  forall (index : nat) (timer : Timer) (highestNonzero : option nat),
    ariaHidden (fst (findHighestNonzero settings entries index timer
                       highestNonzero)) Seconds
    = ariaHidden timer Seconds.
Proof.
  induction entries as [ | [u v] rest IH]; intros index timer hn; simpl.
  - reflexivity.
  - destruct (numLt 0 v).
    + destruct (toBoolean v); [ reflexivity | apply IH ].
    + destruct (match hn with None => true | Some _ => false end
                && negb (Unit_eqb u Seconds)) eqn:Hzero; [ | apply IH ].
      rewrite IH.
      apply andb_true_iff in Hzero. destruct Hzero as [_ Hu].
      apply negb_true_iff in Hu.
      destruct (negb (showZeroes settings)
                && contains (setAriaHidden timer u true) u);
        cbn [ariaHidden setChildren setAriaHidden]; unfold update;
        now rewrite Hu.
Qed.

(** [updateTime] sets [aria-live] from the highest non-zero index and the
    strict comparison of 0 with the last entry of the breakdown. *)
Lemma resolve_ariaLive (getFullYear : Z -> Z) (settings : Settings)
    (time : Z) (clock : Clock) (timer : Timer) :
  ariaLive (fst (resolve getFullYear settings time clock timer))
  = Some (if isLastIndex (snd (resolve getFullYear settings time clock timer))
          then Polite
          else if numStrictEq 0
                    (nth 5 (formatDiff getFullYear settings
                              (time - atUpdate clock) time (atFormat clock))
                       (VNum 0))
               then Polite else Off).
Proof.
  unfold resolve.
  destruct (findHighestNonzero settings _ 0 timer None) as [timer1 [i | ]];
    cbn [fst snd].
  - rewrite (proj1 (showHighest_attributes settings intervals i 0 _)).
    unfold announce.
    destruct (isLastIndex (Some i)); [ reflexivity | ].
    now destruct (numStrictEq 0 _).
  - unfold announce. cbn [isLastIndex].
    now destruct (numStrictEq 0 _).
Qed.

(** [updateTime] changes the [aria-hidden] attribute of the seconds
    element only when seconds is the highest non-zero interval, and then to
    "false". *)
Lemma resolve_seconds_hidden (getFullYear : Z -> Z) (settings : Settings)
    (time : Z) (clock : Clock) (timer : Timer) :
  ariaHidden (fst (resolve getFullYear settings time clock timer)) Seconds
  = if isLastIndex (snd (resolve getFullYear settings time clock timer))
    then Some false
    else ariaHidden timer Seconds.
Proof.
  unfold resolve.
  pose proof (findHighestNonzero_seconds_hidden settings
                (combine intervals
                   (formatDiff getFullYear settings (time - atUpdate clock)
                      time (atFormat clock))) 0 timer None) as Hscan.
  destruct (findHighestNonzero settings _ 0 timer None) as [timer1 [i | ]];
    cbn [fst snd] in *.
  - rewrite (proj2 (showHighest_attributes settings intervals i 0 _)).
    unfold announce.
    destruct (isLastIndex (Some i)); [ reflexivity | ].
    now destruct (numStrictEq 0 _).
  - unfold announce. cbn [isLastIndex].
    now destruct (numStrictEq 0 _).
Qed.

Lemma nth_formatDiff (getFullYear : Z -> Z) (settings : Settings)
    (milliseconds time now : Z) :
  nth 5 (formatDiff getFullYear settings milliseconds time now) (VNum 0)
  = pad settings (nth 5 (formatDiffNumbers getFullYear milliseconds time now) 0).
Proof. reflexivity. Qed.

(** X7. Without [padValues], a call of [updateTime] sets [aria-live] to
    "polite" when seconds is the highest non-zero interval or the seconds
    number of the breakdown is 0, and to "off" otherwise. *)
Lemma live_region_unpadded (getFullYear : Z -> Z) (settings : Settings)
    (time : Z) (clock : Clock) (timer : Timer) :
  padValues settings = false ->
  ariaLive (fst (resolve getFullYear settings time clock timer))
  = Some (if isLastIndex (snd (resolve getFullYear settings time clock timer))
          then Polite
          else if nth 5 (formatDiffNumbers getFullYear (time - atUpdate clock)
                           time (atFormat clock)) 0 =? 0
               then Polite else Off).
Proof.
  intros Hpad. rewrite resolve_ariaLive, nth_formatDiff.
  unfold pad. rewrite Hpad. cbn [numStrictEq].
  now rewrite Z.eqb_sym.
Qed.

(** X8. With [padValues], a call of [updateTime] in which seconds is not
    the highest non-zero interval always sets [aria-live] to "off". *)
Lemma live_region_padded (getFullYear : Z -> Z) (settings : Settings)
    (time : Z) (clock : Clock) (timer : Timer) :
  padValues settings = true ->
  isLastIndex (snd (resolve getFullYear settings time clock timer)) = false ->
  ariaLive (fst (resolve getFullYear settings time clock timer)) = Some Off.
Proof.
  intros Hpad Hlast. rewrite resolve_ariaLive, nth_formatDiff, Hlast.
  unfold pad. rewrite Hpad.
  destruct (_ <? 10) eqn:Hlt; cbn [numStrictEq]; [ reflexivity | ].
  match goal with |- context [0 =? ?n] => replace (0 =? n) with false by lia end.
  reflexivity.
Qed.

(** C5. With [padValues], exactly one minute before the target: minutes is
    the highest non-zero interval and the seconds value is 0, yet
    [aria-live] is set to "off", because the last entry of the breakdown is
    the string "00". *)
Theorem padded_minute_boundary_is_off :
  let time := march_1_2024 + 60000 in
  let clock := mkClock march_1_2024 march_1_2024 in
  let r := resolve utcFullYear padded time clock (createdTimer padded) in
  padValues padded = true
  /\ formatDiffNumbers utcFullYear (time - atUpdate clock) time (atFormat clock)
     = [0; 0; 0; 0; 1; 0]
  /\ nth 5 (formatDiff utcFullYear padded (time - atUpdate clock) time
              (atFormat clock)) (VNum 0) = VStr "00"
  /\ snd r = Some 4%nat
  /\ ariaLive (fst r) = Some Off.
Proof. repeat split; vm_compute; reflexivity. Qed.

(** ** The seconds element while a larger interval leads *)

(** Ninety seconds before the target, under the default settings, minutes
    is the highest non-zero interval and the seconds element is in the
    timer, but its [aria-hidden] attribute is not "false". *)
Lemma seconds_not_unhidden_behind_minutes :
  let time := march_1_2024 + 90000 in
  let clock := mkClock march_1_2024 march_1_2024 in
  let r := resolve utcFullYear defaults time clock (createdTimer defaults) in
  formatDiffNumbers utcFullYear (time - atUpdate clock) time (atFormat clock)
  = [0; 0; 0; 0; 1; 30]
  /\ ~ (snd r = Some 4%nat
        /\ contains (fst r) Seconds = true
        /\ ariaHidden (fst r) Seconds = Some false).
Proof.
  split; [ vm_compute; reflexivity | ].
  intros (_ & _ & Hhidden). vm_compute in Hhidden. discriminate.
Qed.

(** C4, amended. On a freshly created timer with every interval allowed and
    the layout not compact, the breakdown 0, 0, 0, 0, 1, 30 makes minutes
    the highest non-zero interval and leaves the seconds element in the
    timer with the [aria-hidden="true"] that [createElements] gave it; and
    in every state the leading-zero scan leaves the [aria-hidden] attribute
    of the seconds element as it was. *)
Theorem seconds_shown_and_still_hidden :
  forall (getFullYear : Z -> Z) (settings : Settings) (time : Z) (clock : Clock),
    (forall u : Unit, allowed (labelOf settings u) = true) ->
    compact settings = false ->
    formatDiffNumbers getFullYear (time - atUpdate clock) time (atFormat clock)
    = [0; 0; 0; 0; 1; 30] ->
    let r := resolve getFullYear settings time clock (createdTimer settings) in
    snd r = Some 4%nat
    /\ contains (fst r) Seconds = true
    /\ ariaHidden (fst r) Seconds = Some true
    /\ (forall (others : Settings) (entries : list (Unit * value)) (index : nat)
               (timer : Timer) (highestNonzero : option nat),
           ariaHidden (fst (findHighestNonzero others entries index timer
                              highestNonzero)) Seconds
           = ariaHidden timer Seconds).
Proof.
  intros getFullYear settings time clock Hall Hcompact Hnumbers r.
  assert (Hhighest : snd r = Some 4%nat).
  { subst r. rewrite resolve_highestNonzero. unfold formatDiff.
    rewrite Hnumbers. unfold pad.
    destruct (padValues settings); reflexivity. }
  split; [ exact Hhighest | ].
  split.
  - subst r. unfold resolve, formatDiff. rewrite Hnumbers.
    pose proof (Hall Years) as Hy. pose proof (Hall Weeks) as Hw.
    pose proof (Hall Days) as Hd. pose proof (Hall Hours) as Hh.
    pose proof (Hall Minutes) as Hm. pose proof (Hall Seconds) as Hs.
    unfold createdTimer, pad.
    destruct settings as [oc oe ot cp an pv sep sz [ya ys yp] [wa ws wp]
                            [da ds dp] [ha hs hp] [ma ms mp] [sa ss sp]].
    cbn in Hy, Hw, Hd, Hh, Hm, Hs, Hcompact. subst.
    destruct pv, sz; vm_compute; reflexivity.
  - split.
    + subst r. rewrite resolve_seconds_hidden, Hhighest. reflexivity.
    + intros others entries index timer highestNonzero.
      apply findHighestNonzero_seconds_hidden.
Qed.

Lemma seconds_shown_and_still_hidden_witness :
  (forall u : Unit, allowed (labelOf defaults u) = true)
  /\ compact defaults = false
  /\ formatDiffNumbers utcFullYear
       (march_1_2024 + 90000 - atUpdate (mkClock march_1_2024 march_1_2024))
       (march_1_2024 + 90000) (atFormat (mkClock march_1_2024 march_1_2024))
     = [0; 0; 0; 0; 1; 30]
  /\ (let r := resolve utcFullYear defaults (march_1_2024 + 90000)
                 (mkClock march_1_2024 march_1_2024) (createdTimer defaults) in
      snd r = Some 4%nat
      /\ contains (fst r) Seconds = true
      /\ ariaHidden (fst r) Seconds = Some true
      /\ (forall (others : Settings) (entries : list (Unit * value))
                 (index : nat) (timer : Timer) (highestNonzero : option nat),
             ariaHidden (fst (findHighestNonzero others entries index timer
                                highestNonzero)) Seconds
             = ariaHidden timer Seconds)).
Proof.
  split; [ intros u; destruct u; reflexivity | ].
  split; [ reflexivity | ].
  split; [ vm_compute; reflexivity | ].
  apply (seconds_shown_and_still_hidden utcFullYear defaults
           (march_1_2024 + 90000) (mkClock march_1_2024 march_1_2024));
    [ intros u; destruct u; reflexivity | reflexivity | vm_compute; reflexivity ].
Defined.

(** * Further properties of the code *)

(** ** What a breakdown adds up to *)

Lemma yearLoop_consumes (isNegative : bool) (finalYear : Z) (fuel : nat) :
  forall st : YearLoop,
    let r := yearLoop fuel isNegative finalYear st in
    365 * (yl_years r - yl_years st) <= yl_days st - yl_days r
    /\ yl_days st - yl_days r <= 366 * (yl_years r - yl_years st).
Proof.
  induction fuel as [ | fuel IH]; intros st; cbn zeta; cbn [yearLoop].
  - lia.
  - destruct (yearLoopGuard finalYear st); [ | lia ].
    specialize (IH (yearLoopBody isNegative st)). cbn zeta in IH.
    pose proof (yearLoopBody_days isNegative st) as Hbody.
    assert (Hy : yl_years (yearLoopBody isNegative st) = yl_years st + 1)
      by reflexivity.
    lia.
Qed.

Lemma yearLoop_skipped (isNegative : bool) (finalYear : Z) (fuel : nat)
    (st : YearLoop) :
  yearLoopGuard finalYear st = false ->
  yearLoop fuel isNegative finalYear st = st.
Proof. intros Hg. destruct fuel; simpl; [ | rewrite Hg ]; reflexivity. Qed.

Lemma weekLoop_consumes (fuel : nat) :
  forall st : WeekLoop,
    wl_weeks st < 52 ->
    let r := weekLoop fuel st in
    7 * (52 * (wl_years r - wl_years st) + (wl_weeks r - wl_weeks st))
    = wl_days st - wl_days r.
Proof.
  induction fuel as [ | fuel IH]; intros st Hw; cbn zeta; cbn [weekLoop].
  - lia.
  - destruct (weekLoopGuard st); [ | lia ].
    specialize (IH (weekLoopBody st)). cbn zeta in IH.
    unfold weekLoopBody in *.
    destruct (52 <=? wl_weeks st + 1) eqn:H52;
      cbn [wl_years wl_weeks wl_days] in IH; lia.
Qed.

Lemma weekLoop_years_grow (fuel : nat) :
  forall st : WeekLoop, wl_years st <= wl_years (weekLoop fuel st).
Proof.
  induction fuel as [ | fuel IH]; intros st; cbn [weekLoop].
  - lia.
  - destruct (weekLoopGuard st); [ | lia ].
    specialize (IH (weekLoopBody st)). unfold weekLoopBody in *.
    destruct (52 <=? wl_weeks st + 1); cbn [wl_years] in IH; lia.
Qed.

Lemma clock_fields_sum (a : Z) :
  0 <= a ->
  a = a / msPerDay * msPerDay
      + Z.rem a msPerDay / msPerHour * msPerHour
      + Z.rem a msPerHour / msPerMinute * msPerMinute
      + Z.rem a msPerMinute / msPerSecond * msPerSecond
      + Z.rem a msPerSecond.
Proof.
  intros Ha.
  rewrite !Z.rem_mod_nonneg by (assumption || reflexivity).
  assert (Hh : a mod msPerHour = (a mod msPerDay) mod msPerHour)
    by (symmetry; apply Z.mod_mod_divide; now exists 24).
  assert (Hm : a mod msPerMinute = (a mod msPerHour) mod msPerMinute)
    by (symmetry; apply Z.mod_mod_divide; now exists 60).
  assert (Hs : a mod msPerSecond = (a mod msPerMinute) mod msPerSecond)
    by (symmetry; apply Z.mod_mod_divide; now exists 60).
  pose proof (Z.div_mod a msPerDay) as E1.
  pose proof (Z.div_mod (a mod msPerDay) msPerHour) as E2.
  pose proof (Z.div_mod (a mod msPerHour) msPerMinute) as E3.
  pose proof (Z.div_mod (a mod msPerMinute) msPerSecond) as E4.
  rewrite <- Hh in E2. rewrite <- Hm in E3. rewrite <- Hs in E4.
  assert (msPerDay <> 0) by discriminate.
  assert (msPerHour <> 0) by discriminate.
  assert (msPerMinute <> 0) by discriminate.
  assert (msPerSecond <> 0) by discriminate.
  lia.
Qed.

(** The days the two loops account for: the year loop takes 365 or 366
    per year it counts, the week loop 7 per week and 364 per year. *)
Lemma formatDiffNumbers_days (getFullYear : Z -> Z)
    (milliseconds time now : Z) :
  exists y w d h m s k : Z,
    formatDiffNumbers getFullYear milliseconds time now = [y; w; d; h; m; s]
    /\ 0 <= k <= y
    /\ 365 * k + 364 * (y - k) + 7 * w + d <= Z.abs milliseconds / msPerDay
    /\ Z.abs milliseconds / msPerDay <= 366 * k + 364 * (y - k) + 7 * w + d
    /\ (yearLoopGuard (getFullYear time)
          {| yl_years := 0; yl_days := Z.abs milliseconds / msPerDay;
             yl_yearToCheck := getFullYear now |} = false -> k = 0)
    /\ Z.abs milliseconds
       = Z.abs milliseconds / msPerDay * msPerDay
         + h * msPerHour + m * msPerMinute + s * msPerSecond
         + Z.rem (Z.abs milliseconds) msPerSecond.
Proof.
  unfold formatDiffNumbers.
  set (isNegative := milliseconds <? 0).
  set (total := Z.abs milliseconds / msPerDay).
  set (start := {| yl_years := 0; yl_days := total;
                   yl_yearToCheck := getFullYear now |}).
  set (afterYears := yearLoop (loopFuel total) isNegative (getFullYear time) start).
  set (startWeeks := {| wl_years := yl_years afterYears; wl_weeks := 0;
                        wl_days := yl_days afterYears |}).
  set (afterWeeks := weekLoop (loopFuel (yl_days afterYears)) startWeeks).
  pose proof (yearLoop_consumes isNegative (getFullYear time) (loopFuel total)
                start) as Hyears.
  cbn zeta in Hyears. fold afterYears in Hyears.
  assert (Hweeks := weekLoop_consumes (loopFuel (yl_days afterYears))
                      startWeeks ltac:(simpl; lia)).
  cbn zeta in Hweeks. fold afterWeeks in Hweeks.
  assert (Htotal : 0 <= total)
    by (apply Z.div_pos; [ apply Z.abs_nonneg | reflexivity ]).
  destruct (yearLoop_range isNegative (getFullYear time) (loopFuel total) start)
    as [Hy _]; [ simpl; lia | simpl; lia | ].
  fold afterYears in Hy.
  destruct (weekLoop_range (loopFuel (yl_days afterYears)) startWeeks)
    as (_ & Hw & _).
  { simpl; lia. }
  { simpl; lia. }
  { simpl. pose proof (yearLoop_range isNegative (getFullYear time)
                         (loopFuel total) start) as Hr.
    fold afterYears in Hr. apply Hr; simpl; lia. }
  fold afterWeeks in Hw.
  cbn [yl_years yl_days wl_years wl_weeks wl_days start startWeeks]
    in Hyears, Hweeks.
  exists (wl_years afterWeeks), (wl_weeks afterWeeks), (wl_days afterWeeks).
  do 3 eexists. exists (yl_years afterYears).
  split; [ reflexivity | ].
  pose proof (weekLoop_years_grow (loopFuel (yl_days afterYears)) startWeeks)
    as Hgrow.
  fold afterWeeks in Hgrow. cbn [wl_years startWeeks] in Hgrow.
  repeat split; try lia.
  - intros Hskip. unfold afterYears.
    rewrite yearLoop_skipped by exact Hskip. reflexivity.
  - apply clock_fields_sum. apply Z.abs_nonneg.
Qed.

(** X1. For every delta, target and clock reading, the numbers of the
    breakdown satisfy [0 <= years], [0 <= weeks < 52], [-1 <= days < 7],
    [0 <= hours < 24], [0 <= minutes < 60] and [0 <= seconds < 60]. *)
Theorem breakdown_ranges :
  forall (getFullYear : Z -> Z) (milliseconds time now : Z),
  exists y w d h m s : Z,
    formatDiffNumbers getFullYear milliseconds time now = [y; w; d; h; m; s]
    /\ 0 <= y /\ 0 <= w < 52 /\ -1 <= d < 7
    /\ 0 <= h < 24 /\ 0 <= m < 60 /\ 0 <= s < 60.
Proof. exact formatDiffNumbers_ranges. Qed.

(** X2. Read with a year of 364 days the six numbers never exceed the
    delta, and read with a year of 366 days they fall short of it by less
    than a second: the breakdown accounts for the whole delta, up to the
    length it gives a year. *)
Theorem breakdown_span :
  forall (getFullYear : Z -> Z) (milliseconds time now : Z),
    let numbers := formatDiffNumbers getFullYear milliseconds time now in
    spanOf 364 numbers <= Z.abs milliseconds
    /\ Z.abs milliseconds < spanOf 366 numbers + msPerSecond.
Proof.
  intros getFullYear milliseconds time now numbers. subst numbers.
  destruct (formatDiffNumbers_days getFullYear milliseconds time now)
    as (y & w & d & h & m & s & k & Heq & Hk & Hlow & Hhigh & _ & Hsum).
  destruct (formatDiffNumbers_ranges getFullYear milliseconds time now)
    as (y' & w' & d' & h' & m' & s' & Heq' & _).
  rewrite Heq. unfold spanOf.
  assert (Hrem : 0 <= Z.rem (Z.abs milliseconds) msPerSecond < msPerSecond)
    by (apply Z.rem_bound_pos; [ apply Z.abs_nonneg | reflexivity ]).
  assert (HD : msPerDay = 86400000) by reflexivity.
  rewrite HD in *. lia.
Qed.

(** X3. When the year loop has nothing to do (the clock and the target lie
    in the same calendar year, or fewer than 365 days apart), the numbers
    give the delta back to the second, a year standing for 52 weeks. *)
Theorem breakdown_exact_without_year_loop :
  forall (getFullYear : Z -> Z) (milliseconds time now : Z),
    getFullYear now = getFullYear time
    \/ Z.abs milliseconds < 365 * msPerDay ->
    let numbers := formatDiffNumbers getFullYear milliseconds time now in
    spanOf 364 numbers <= Z.abs milliseconds
    /\ Z.abs milliseconds < spanOf 364 numbers + msPerSecond.
Proof.
  intros getFullYear milliseconds time now Hcase numbers. subst numbers.
  destruct (formatDiffNumbers_days getFullYear milliseconds time now)
    as (y & w & d & h & m & s & k & Heq & Hk & Hlow & Hhigh & Hskip & Hsum).
  assert (Hk0 : k = 0).
  { apply Hskip. unfold yearLoopGuard. cbn [yl_yearToCheck yl_days].
    destruct Hcase as [Hsame | Hshort].
    - rewrite Hsame, Z.eqb_refl. reflexivity.
    - assert (Z.abs milliseconds / msPerDay < 365)
        by (apply Z.div_lt_upper_bound; [ reflexivity | lia ]).
      replace (365 <=? Z.abs milliseconds / msPerDay) with false by lia.
      apply andb_false_r. }
  subst k. rewrite Heq. unfold spanOf.
  assert (Hrem : 0 <= Z.rem (Z.abs milliseconds) msPerSecond < msPerSecond)
    by (apply Z.rem_bound_pos; [ apply Z.abs_nonneg | reflexivity ]).
  assert (HD : msPerDay = 86400000) by reflexivity.
  rewrite HD in *. lia.
Qed.

Lemma breakdown_exact_without_year_loop_witness :
  (utcFullYear march_1_2024 = utcFullYear (march_1_2024 + 364 * msPerDay)
   \/ Z.abs (364 * msPerDay) < 365 * msPerDay)
  /\ (let numbers := formatDiffNumbers utcFullYear (364 * msPerDay)
                       (march_1_2024 + 364 * msPerDay) march_1_2024 in
      spanOf 364 numbers <= Z.abs (364 * msPerDay)
      /\ Z.abs (364 * msPerDay) < spanOf 364 numbers + msPerSecond).
Proof.
  split; [ right; vm_compute; reflexivity | ].
  apply (breakdown_exact_without_year_loop utcFullYear (364 * msPerDay)
           (march_1_2024 + 364 * msPerDay) march_1_2024).
  right. vm_compute. reflexivity.
Defined.

(** ** The highest non-zero interval, in numbers *)

Lemma numToString_negative (p : positive) :
  exists rest : string, numToString (Z.neg p) = String "-" rest.
Proof. unfold numToString. simpl. eexists. reflexivity. Qed.

(** [0 < pad( n )] is [0 < n]: a padded digit converts back to itself, and
    a padded negative number is not a number. *)
Lemma numLt_pad (settings : Settings) (n : Z) :
  numLt 0 (pad settings n) = (0 <? n).
Proof.
  destruct (Z.le_gt_cases 0 n) as [Hpos | Hneg].
  - unfold numLt. now rewrite toNumber_pad.
  - replace (0 <? n) with false by lia.
    unfold pad. destruct (padValues settings).
    + replace (n <? 10) with true by lia.
      destruct n as [ | p | p]; try lia.
      destruct (numToString_negative p) as [rest ->]. reflexivity.
    + unfold numLt, toNumber. lia.
Qed.

Lemma firstPositive_pad (settings : Settings) (numbers : list Z) :
  forall index : nat,
    firstPositive (map (pad settings) numbers) index
    = firstPositiveNumber numbers index.
Proof.
  induction numbers as [ | n rest IH]; intros index; simpl.
  - reflexivity.
  - rewrite numLt_pad. destruct (0 <? n); [ reflexivity | apply IH ].
Qed.

(** X4. The highest non-zero interval that [updateTime] finds is the first
    of the six numbers of the breakdown that is greater than 0 (none when
    there is no such number): it does not depend on the padding, on which
    intervals are allowed, or on the document. *)
Theorem highestNonzero_is_first_positive_number :
  forall (getFullYear : Z -> Z) (settings : Settings) (time : Z)
         (clock : Clock) (timer : Timer),
    snd (resolve getFullYear settings time clock timer)
    = firstPositiveNumber
        (formatDiffNumbers getFullYear (time - atUpdate clock) time
           (atFormat clock)) 0.
Proof.
  intros getFullYear settings time clock timer.
  rewrite resolve_highestNonzero. unfold formatDiff.
  apply firstPositive_pad.
Qed.

(** ** [aria-hidden] over the life of a timer *)

Lemma updateDisplays_ariaHidden (settings : Settings)
    (entries : list (Unit * value)) :
  forall timer,
    ariaHidden (updateDisplays settings entries timer) = ariaHidden timer.
Proof.
  induction entries as [ | [u v] rest IH]; intros timer; simpl.
  - reflexivity.
  - rewrite IH. unfold updateDisplay. now destruct (contains timer u).
Qed.

Lemma updateTime_ariaHidden (getFullYear : Z -> Z) (settings : Settings)
    (time : Z) (clock : Clock) (s : Session) :
  ariaHidden (element (fst (updateTime getFullYear settings time clock s)))
  = ariaHidden (fst (resolve getFullYear settings time clock (element s))).
Proof.
  unfold updateTime.
  destruct ((time - atUpdate clock <=? 0) && negb (allowNegative settings)).
  - cbn [repeat withTimer]. destruct (repeat s) as [handle | ].
    + destruct (negb (handle =? 0)); destruct (onEnd settings);
        cbn [fst element logEvent withTimer];
        apply updateDisplays_ariaHidden.
    + cbn [fst element withTimer]. apply updateDisplays_ariaHidden.
  - destruct (onTick settings); cbn [fst element logEvent withTimer];
      apply updateDisplays_ariaHidden.
Qed.

Lemma findHighestNonzero_hides_only (settings : Settings)
    (entries : list (Unit * value)) (u : Unit) :
  forall (index : nat) (timer : Timer) (highestNonzero : option nat),
    ariaHidden (fst (findHighestNonzero settings entries index timer
                       highestNonzero)) u = Some true
    \/ ariaHidden (fst (findHighestNonzero settings entries index timer
                          highestNonzero)) u = ariaHidden timer u.
Proof.
  induction entries as [ | [w v] rest IH]; intros index timer hn; simpl.
  - now right.
  - destruct (numLt 0 v).
    + destruct (toBoolean v); [ now right | apply IH ].
    + destruct (match hn with None => true | Some _ => false end
                && negb (Unit_eqb w Seconds)); [ | apply IH ].
      match goal with
      | |- context [findHighestNonzero settings rest (S index) ?t hn] =>
          destruct (IH (S index) t hn) as [Hset | Hkeep];
          [ now left | rewrite Hkeep ]
      end.
      destruct (negb (showZeroes settings)
                && contains (setAriaHidden timer w true) w);
        cbn [ariaHidden setChildren setAriaHidden]; unfold update;
        destruct (Unit_eqb w u); auto.
Qed.

Lemma resolve_hides_only (getFullYear : Z -> Z) (settings : Settings)
    (time : Z) (clock : Clock) (timer : Timer) (u : Unit) :
  u <> Seconds ->
  ariaHidden (fst (resolve getFullYear settings time clock timer)) u = Some true
  \/ ariaHidden (fst (resolve getFullYear settings time clock timer)) u
     = ariaHidden timer u.
Proof.
  intros Hu. apply Unit_eqb_neq in Hu.
  assert (Hsec : Unit_eqb Seconds u = false)
    by (destruct u; try reflexivity; discriminate).
  unfold resolve.
  pose proof (findHighestNonzero_hides_only settings
                (combine intervals
                   (formatDiff getFullYear settings (time - atUpdate clock)
                      time (atFormat clock))) u 0 timer None) as Hscan.
  destruct (findHighestNonzero settings _ 0 timer None) as [timer1 [i | ]];
    cbn [fst snd] in *.
  - rewrite (proj2 (showHighest_attributes settings intervals i 0 _)).
    unfold announce.
    destruct (isLastIndex (Some i));
      [ cbn [ariaHidden setAriaHidden setAriaLive]; unfold update;
        rewrite Hsec; exact Hscan | ].
    destruct (numStrictEq 0 _); exact Hscan.
  - unfold announce. cbn [isLastIndex].
    destruct (numStrictEq 0 _); exact Hscan.
Qed.

(** X5. An interval other than seconds that was hidden from assistive
    technologies stays hidden whatever the interval fires at afterwards:
    [updateTime] never sets its [aria-hidden] back, not even when its
    value is no longer zero. *)
Theorem hidden_interval_is_never_unhidden :
  forall (getFullYear : Z -> Z) (settings : Settings) (time : Z)
         (clocks : list Clock) (s : Session) (u : Unit),
    u <> Seconds ->
    ariaHidden (element s) u = Some true ->
    ariaHidden (element (run getFullYear settings time clocks s)) u = Some true.
Proof.
  intros getFullYear settings time clocks. unfold run.
  induction clocks as [ | c clocks IH]; intros s u Hu Hhidden; simpl.
  - assumption.
  - apply IH; [ assumption | ].
    unfold fire. destruct (scheduled s); [ | assumption ].
    rewrite updateTime_ariaHidden.
    destruct (resolve_hides_only getFullYear settings time c (element s) u Hu)
      as [Hset | Hkeep]; congruence.
Qed.

Lemma hidden_interval_is_never_unhidden_witness :
  Years <> Seconds
  /\ ariaHidden
       (element (fst (createTimer utcFullYear defaults
                        (Some (march_1_2024 + 90000)) 0
                        (mkClock march_1_2024 march_1_2024) 1))) Years
     = Some true
  /\ ariaHidden
       (element
          (run utcFullYear defaults (march_1_2024 + 90000)
             [mkClock (march_1_2024 + 1000) (march_1_2024 + 1000)]
             (fst (createTimer utcFullYear defaults
                     (Some (march_1_2024 + 90000)) 0
                     (mkClock march_1_2024 march_1_2024) 1)))) Years
     = Some true.
Proof.
  split; [ discriminate | ]. split; [ vm_compute; reflexivity | ].
  apply (hidden_interval_is_never_unhidden utcFullYear defaults
           (march_1_2024 + 90000)
           [mkClock (march_1_2024 + 1000) (march_1_2024 + 1000)]
           (fst (createTimer utcFullYear defaults
                   (Some (march_1_2024 + 90000)) 0
                   (mkClock march_1_2024 march_1_2024) 1)) Years);
    [ discriminate | vm_compute; reflexivity ].
Defined.

(** X6. A call of [updateTime] leaves the [aria-hidden] attribute of the
    seconds element alone unless seconds is the highest non-zero interval,
    and then sets it to "false"; so once the seconds are exposed to
    assistive technologies they stay exposed. *)
Theorem seconds_unhidden_for_good :
  forall (getFullYear : Z -> Z) (settings : Settings) (time : Z),
    (forall (clock : Clock) (s : Session),
        ariaHidden
          (element (fst (updateTime getFullYear settings time clock s))) Seconds
        = if isLastIndex
               (snd (resolve getFullYear settings time clock (element s)))
          then Some false
          else ariaHidden (element s) Seconds)
    /\ (forall (clocks : list Clock) (s : Session),
           ariaHidden (element s) Seconds = Some false ->
           ariaHidden (element (run getFullYear settings time clocks s)) Seconds
           = Some false).
Proof.
  intros getFullYear settings time.
  assert (Hstep : forall (clock : Clock) (s : Session),
             ariaHidden
               (element (fst (updateTime getFullYear settings time clock s)))
               Seconds
             = if isLastIndex
                    (snd (resolve getFullYear settings time clock (element s)))
               then Some false
               else ariaHidden (element s) Seconds).
  { intros clock s. rewrite updateTime_ariaHidden.
    apply resolve_seconds_hidden. }
  split; [ exact Hstep | ].
  intros clocks. unfold run.
  induction clocks as [ | c clocks IH]; intros s Hs; simpl.
  - assumption.
  - apply IH. unfold fire. destruct (scheduled s); [ | assumption ].
    rewrite Hstep, Hs. now destruct (isLastIndex _).
Qed.

(** ** Witnesses of the live-region and label rules *)

Lemma live_region_unpadded_witness :
  padValues defaults = false
  /\ ariaLive (fst (resolve utcFullYear defaults (march_1_2024 + 120000)
                      (mkClock march_1_2024 march_1_2024)
                      (createdTimer defaults)))
     = Some (if isLastIndex
                  (snd (resolve utcFullYear defaults (march_1_2024 + 120000)
                          (mkClock march_1_2024 march_1_2024)
                          (createdTimer defaults)))
             then Polite
             else if nth 5 (formatDiffNumbers utcFullYear
                              (march_1_2024 + 120000
                               - atUpdate (mkClock march_1_2024 march_1_2024))
                              (march_1_2024 + 120000)
                              (atFormat (mkClock march_1_2024 march_1_2024)))
                       0 =? 0
                  then Polite else Off).
Proof.
  split; [ reflexivity | ].
  apply (live_region_unpadded utcFullYear defaults (march_1_2024 + 120000)
           (mkClock march_1_2024 march_1_2024) (createdTimer defaults)).
  reflexivity.
Defined.

Lemma live_region_padded_witness :
  padValues padded = true
  /\ isLastIndex
       (snd (resolve utcFullYear padded (march_1_2024 + 120000)
               (mkClock march_1_2024 march_1_2024) (createdTimer padded)))
     = false
  /\ ariaLive (fst (resolve utcFullYear padded (march_1_2024 + 120000)
                      (mkClock march_1_2024 march_1_2024)
                      (createdTimer padded)))
     = Some Off.
Proof.
  split; [ reflexivity | ]. split; [ vm_compute; reflexivity | ].
  apply (live_region_padded utcFullYear padded (march_1_2024 + 120000)
           (mkClock march_1_2024 march_1_2024) (createdTimer padded));
    [ reflexivity | vm_compute; reflexivity ].
Defined.

Lemma unitsFor_pad_witness :
  0 <= 1
  /\ (padValues padded = false \/ 1 <> 0)
  /\ unitsFor (pad padded 1) (minutes padded)
     = if 1 =? 1 then singular (minutes padded) else plural (minutes padded).
Proof.
  split; [ lia | ]. split; [ right; lia | ].
  apply (unitsFor_pad padded 1 (minutes padded)); [ lia | right; lia ].
Defined.

(** ** Padding *)

(** X10. With [padValues], every value from 0 to 99 is rendered with
    exactly two characters, and the padded value still converts to the
    number it was made from. *)
Theorem padded_value_has_two_characters :
  forall (settings : Settings) (n : Z),
    padValues settings = true ->
    0 <= n < 100 ->
    String.length (toString (pad settings n)) = 2%nat
    /\ toNumber (pad settings n) = Some n.
Proof.
  intros settings n Hpad Hn.
  split; [ | apply toNumber_pad; lia ].
  unfold pad. rewrite Hpad.
  assert (Hk : exists k : nat, (k < 100)%nat /\ n = Z.of_nat k)
    by (exists (Z.to_nat n); lia).
  destruct Hk as (k & Hk & ->).
  do 100 (destruct k as [ | k]; [ reflexivity | ]). lia.
Qed.

Lemma padded_value_has_two_characters_witness :
  padValues padded = true
  /\ 0 <= 7 < 100
  /\ String.length (toString (pad padded 7)) = 2%nat
  /\ toNumber (pad padded 7) = Some 7.
Proof.
  split; [ reflexivity | ]. split; [ lia | ].
  apply (padded_value_has_two_characters padded 7); [ reflexivity | lia ].
Defined.

(** ** The child nodes of the timer *)

Lemma findHighestNonzero_flags (settings : Settings)
    (entries : list (Unit * value)) :
  forall (index : nat) (timer : Timer) (highestNonzero : option nat),
    findHighestNonzero settings entries index timer highestNonzero
    = findHighestNonzero settings
        (map (fun e => (fst e, if numLt 0 (snd e) then VNum 1 else VNum 0))
           entries)
        index timer highestNonzero.
Proof.
  induction entries as [ | [u v] rest IH]; intros index timer hn; simpl.
  - reflexivity.
  - destruct (numLt 0 v) eqn:Hlt.
    + rewrite (numLt_truthy v Hlt). reflexivity.
    + cbn [numLt toNumber Z.ltb Z.compare].
      destruct (match hn with None => true | Some _ => false end
                && negb (Unit_eqb u Seconds)); apply IH.
Qed.

Lemma showHighest_children_only (settings : Settings) (rest : list Unit)
    (highestNonzero : nat) :
  forall (index : nat) (timer timer' : Timer),
    children timer = children timer' ->
    children (showHighest settings rest index highestNonzero timer)
    = children (showHighest settings rest index highestNonzero timer').
Proof.
  induction rest as [ | u rest IH]; intros index timer timer' Hsame; simpl.
  - assumption.
  - apply IH. unfold contains. rewrite <- Hsame.
    destruct (compact settings && hasPreviousSibling u (children timer));
      cbn [children setChildren]; rewrite <- ?Hsame;
      destruct (Nat.eqb highestNonzero index);
      repeat match goal with
             | |- context [if ?b then _ else _] => destruct b
             end;
      cbn [children setChildren]; congruence.
Qed.

(** The child nodes and the highest non-zero index that [updateTime]
    arrives at depend on the breakdown only through the signs of its six
    numbers. *)
Lemma resolve_scanAndShow (getFullYear : Z -> Z) (settings : Settings)
    (time : Z) (clock : Clock) (timer : Timer) :
  (children (fst (resolve getFullYear settings time clock timer)),
   snd (resolve getFullYear settings time clock timer))
  = scanAndShow settings
      (map (fun n => 0 <? n)
         (formatDiffNumbers getFullYear (time - atUpdate clock) time
            (atFormat clock)))
      timer.
Proof.
  unfold resolve, scanAndShow, formatDiff.
  destruct (formatDiffNumbers_ranges getFullYear (time - atUpdate clock) time
              (atFormat clock)) as (y & w & d & h & m & s & Heq & _).
  rewrite Heq. rewrite findHighestNonzero_flags.
  cbn [map combine intervals fst snd]. rewrite !numLt_pad.
  destruct (findHighestNonzero settings _ 0 timer None) as [timer1 [i | ]];
    cbn [fst snd].
  - f_equal. apply showHighest_children_only.
    unfold announce.
    destruct (isLastIndex (Some i)); [ reflexivity | ].
    now destruct (numStrictEq 0 _).
  - f_equal. unfold announce. cbn [isLastIndex].
    now destruct (numStrictEq 0 _).
Qed.

Ltac split_resolve getFullYear settings time clock timer :=
  let H := fresh "H" in
  pose proof (resolve_scanAndShow getFullYear settings time clock timer) as H;
  destruct (formatDiffNumbers_ranges getFullYear (time - atUpdate clock) time
              (atFormat clock)) as (?y & ?w & ?d & ?h & ?m & ?s & ?Heq & _);
  match goal with E : formatDiffNumbers _ _ _ _ = _ |- _ => rewrite E in H end;
  cbn [map] in H;
  apply (f_equal fst) in H as ?Hchildren;
  apply (f_equal snd) in H as ?Hindex;
  cbn [fst snd] in *;
  clear H.

Ltac by_first_positive tac :=
  match goal with
  | |- context [scanAndShow _ [?b0; ?b1; ?b2; ?b3; ?b4; ?b5] _] =>
      destruct b0;
      [ tac
      | destruct b1;
        [ tac
        | destruct b2;
          [ tac
          | destruct b3;
            [ tac
            | destruct b4; [ tac | destruct b5; tac ] ] ] ] ]
  end.

(** X11. The child nodes [createElements] gives a timer are the elements of
    the allowed intervals, in the fixed order, with one separator between
    two neighbours: no separator leads, trails or repeats. *)
Theorem created_children_are_interspersed :
  forall settings : Settings,
    children (createdTimer settings)
    = intersperse Separator (map Interval (allowedIntervals settings)).
Proof.
  intros [oc oe ot cp an pv sep sz [ya ys yp] [wa ws wp] [da ds dp]
            [ha hs hp] [ma ms mp] [sa ss sp]].
  destruct ya, wa, da, ha, ma, sa; reflexivity.
Qed.

(** X12. The first update of a timer in the default layout ([compact] and
    [showZeroes] off) removes the leading zero intervals together with
    their separators: what remains is what [createElements] would build
    from the highest non-zero interval on (only the seconds when every
    number is zero); a highest non-zero interval that is not allowed is
    appended at the end. *)
Theorem first_update_drops_leading_zeroes :
  forall (getFullYear : Z -> Z) (settings : Settings) (time : Z) (clock : Clock),
    compact settings = false ->
    showZeroes settings = false ->
    let r := resolve getFullYear settings time clock (createdTimer settings) in
    children (fst r)
    = match snd r with
      | Some i =>
          fragment settings (skipn i intervals)
          ++ (if allowed (labelOf settings (nth i intervals Seconds))
              then [] else [Interval (nth i intervals Seconds)])
      | None => fragment settings [Seconds]
      end.
Proof.
  intros getFullYear settings time clock Hcompact Hzeroes r. subst r.
  split_resolve getFullYear settings time clock (createdTimer settings).
  rewrite Hchildren, Hindex. clear Hchildren Hindex.
  destruct settings as [oc oe ot cp an pv sep sz [ya ys yp] [wa ws wp]
                          [da ds dp] [ha hs hp] [ma ms mp] [sa ss sp]].
  cbn in Hcompact, Hzeroes. subst cp sz.
  generalize (0 <? y), (0 <? w), (0 <? d), (0 <? h), (0 <? m), (0 <? s).
  intros b0 b1 b2 b3 b4 b5.
  destruct ya, wa, da, ha, ma, sa;
    by_first_positive ltac:(vm_compute; reflexivity).
Qed.

Lemma first_update_drops_leading_zeroes_witness :
  compact defaults = false
  /\ showZeroes defaults = false
  /\ (let r := resolve utcFullYear defaults (march_1_2024 + 90 * msPerDay)
                 (mkClock march_1_2024 march_1_2024) (createdTimer defaults) in
      children (fst r)
      = match snd r with
        | Some i =>
            fragment defaults (skipn i intervals)
            ++ (if allowed (labelOf defaults (nth i intervals Seconds))
                then [] else [Interval (nth i intervals Seconds)])
        | None => fragment defaults [Seconds]
        end).
Proof.
  split; [ reflexivity | ]. split; [ reflexivity | ].
  apply (first_update_drops_leading_zeroes utcFullYear defaults
           (march_1_2024 + 90 * msPerDay) (mkClock march_1_2024 march_1_2024));
    reflexivity.
Defined.

(** X13. In the default layout with every interval allowed, an update that
    finds the timer showing the intervals from position [j] on leaves it
    showing the intervals from the highest non-zero position [i] on when
    [j <= i] (the display shrinks from the left as the countdown proceeds),
    appends the element of interval [i] at the end when [i < j], and
    leaves only the seconds when every number is zero. *)
Theorem update_keeps_suffix_layout :
  forall (getFullYear : Z -> Z) (settings : Settings) (time : Z) (clock : Clock)
         (timer : Timer) (j : nat),
    (forall u : Unit, allowed (labelOf settings u) = true) ->
    compact settings = false ->
    showZeroes settings = false ->
    (j <= 5)%nat ->
    children timer = fragment settings (skipn j intervals) ->
    let r := resolve getFullYear settings time clock timer in
    children (fst r)
    = match snd r with
      | Some i =>
          if Nat.leb j i then fragment settings (skipn i intervals)
          else fragment settings (skipn j intervals)
               ++ [Interval (nth i intervals Seconds)]
      | None => fragment settings [Seconds]
      end.
Proof.
  intros getFullYear settings time clock timer j Hall Hcompact Hzeroes Hj
    Hchildren0 r. subst r.
  split_resolve getFullYear settings time clock timer.
  rewrite Hchildren, Hindex. clear Hchildren Hindex.
  pose proof (Hall Years) as Hy. pose proof (Hall Weeks) as Hw.
  pose proof (Hall Days) as Hd. pose proof (Hall Hours) as Hh.
  pose proof (Hall Minutes) as Hm. pose proof (Hall Seconds) as Hs.
  clear Hall.
  destruct settings as [oc oe ot cp an pv sep sz [ya ys yp] [wa ws wp]
                          [da ds dp] [ha hs hp] [ma ms mp] [sa ss sp]].
  cbn in Hcompact, Hzeroes, Hy, Hw, Hd, Hh, Hm, Hs. subst.
  destruct timer as [nodes hidden live text].
  cbn [children] in Hchildren0.
  generalize (0 <? y), (0 <? w), (0 <? d), (0 <? h), (0 <? m), (0 <? s).
  intros b0 b1 b2 b3 b4 b5.
  do 6 (destruct j as [ | j];
        [ vm_compute in Hchildren0; subst nodes;
          by_first_positive ltac:(vm_compute; reflexivity) | ]).
  lia.
Qed.

Lemma update_keeps_suffix_layout_witness :
  (forall u : Unit, allowed (labelOf defaults u) = true)
  /\ compact defaults = false
  /\ showZeroes defaults = false
  /\ (0 <= 5)%nat
  /\ children (createdTimer defaults) = fragment defaults (skipn 0 intervals)
  /\ (let r := resolve utcFullYear defaults (march_1_2024 + 90000)
                 (mkClock march_1_2024 march_1_2024) (createdTimer defaults) in
      children (fst r)
      = match snd r with
        | Some i =>
            if Nat.leb 0 i then fragment defaults (skipn i intervals)
            else fragment defaults (skipn 0 intervals)
                 ++ [Interval (nth i intervals Seconds)]
        | None => fragment defaults [Seconds]
        end).
Proof.
  split; [ intros u; destruct u; reflexivity | ].
  split; [ reflexivity | ]. split; [ reflexivity | ].
  split; [ lia | ]. split; [ reflexivity | ].
  apply (update_keeps_suffix_layout utcFullYear defaults (march_1_2024 + 90000)
           (mkClock march_1_2024 march_1_2024) (createdTimer defaults) 0%nat);
    [ intros u; destruct u; reflexivity | reflexivity | reflexivity | lia
    | reflexivity ].
Defined.

(** X14. In the compact layout the first update of a timer leaves exactly
    one child node, the element of the highest non-zero interval (allowed
    or not), and no separator.  When every number is zero nothing is
    compacted: the leading zero intervals go ([showZeroes] off) or
    everything stays ([showZeroes] on). *)
Theorem compact_first_update_shows_one_interval :
  forall (getFullYear : Z -> Z) (settings : Settings) (time : Z) (clock : Clock),
    compact settings = true ->
    let r := resolve getFullYear settings time clock (createdTimer settings) in
    children (fst r)
    = match snd r with
      | Some i => [Interval (nth i intervals Seconds)]
      | None =>
          if showZeroes settings then fragment settings intervals
          else fragment settings [Seconds]
      end.
Proof.
  intros getFullYear settings time clock Hcompact r. subst r.
  split_resolve getFullYear settings time clock (createdTimer settings).
  rewrite Hchildren, Hindex. clear Hchildren Hindex.
  destruct settings as [oc oe ot cp an pv sep sz [ya ys yp] [wa ws wp]
                          [da ds dp] [ha hs hp] [ma ms mp] [sa ss sp]].
  cbn in Hcompact. subst cp.
  generalize (0 <? y), (0 <? w), (0 <? d), (0 <? h), (0 <? m), (0 <? s).
  intros b0 b1 b2 b3 b4 b5.
  destruct sz, ya, wa, da, ha, ma, sa;
    by_first_positive ltac:(vm_compute; reflexivity).
Qed.

Lemma compact_first_update_shows_one_interval_witness :
  compact compacted = true
  /\ (let r := resolve utcFullYear compacted (march_1_2024 + 400 * msPerDay)
                 (mkClock march_1_2024 march_1_2024) (createdTimer compacted) in
      children (fst r)
      = match snd r with
        | Some i => [Interval (nth i intervals Seconds)]
        | None =>
            if showZeroes compacted then fragment compacted intervals
            else fragment compacted [Seconds]
        end).
Proof.
  split; [ reflexivity | ].
  apply (compact_first_update_shows_one_interval utcFullYear compacted
           (march_1_2024 + 400 * msPerDay) (mkClock march_1_2024 march_1_2024)).
  reflexivity.
Defined.

(** X15. In the compact layout, a timer that holds at most one interval
    element and no separator holds, after an update with some non-zero
    number, exactly the element of the highest non-zero interval; with
    every number zero it keeps what it had or loses it. *)
Theorem compact_update_keeps_one_interval :
  forall (getFullYear : Z -> Z) (settings : Settings) (time : Z) (clock : Clock)
         (timer : Timer),
    compact settings = true ->
    children timer = [] \/ (exists u, children timer = [Interval u]) ->
    let r := resolve getFullYear settings time clock timer in
    match snd r with
    | Some i => children (fst r) = [Interval (nth i intervals Seconds)]
    | None => children (fst r) = [] \/ children (fst r) = children timer
    end.
Proof.
  intros getFullYear settings time clock timer Hcompact Hone r. subst r.
  split_resolve getFullYear settings time clock timer.
  rewrite Hchildren, Hindex. clear Hchildren Hindex.
  destruct settings as [oc oe ot cp an pv sep sz ly lw ld lh lm ls].
  cbn in Hcompact. subst cp.
  destruct timer as [nodes hidden live text]. cbn [children] in *.
  generalize (0 <? y), (0 <? w), (0 <? d), (0 <? h), (0 <? m), (0 <? s).
  intros b0 b1 b2 b3 b4 b5.
  destruct Hone as [-> | [u ->]]; [ | destruct u ]; destruct sz;
    by_first_positive ltac:(vm_compute; auto).
Qed.

Lemma compact_update_keeps_one_interval_witness :
  compact compacted = true
  /\ (children (mkTimer [Interval Minutes] (fun _ => None) None (fun _ => None))
      = []
      \/ (exists u,
             children (mkTimer [Interval Minutes] (fun _ => None) None
                         (fun _ => None)) = [Interval u]))
  /\ (let r := resolve utcFullYear compacted (march_1_2024 + 30000)
                 (mkClock march_1_2024 march_1_2024)
                 (mkTimer [Interval Minutes] (fun _ => None) None
                    (fun _ => None)) in
      match snd r with
      | Some i => children (fst r) = [Interval (nth i intervals Seconds)]
      | None =>
          children (fst r) = []
          \/ children (fst r)
             = children (mkTimer [Interval Minutes] (fun _ => None) None
                           (fun _ => None))
      end).
Proof.
  split; [ reflexivity | ].
  split; [ right; exists Minutes; reflexivity | ].
  apply (compact_update_keeps_one_interval utcFullYear compacted
           (march_1_2024 + 30000) (mkClock march_1_2024 march_1_2024)
           (mkTimer [Interval Minutes] (fun _ => None) None (fun _ => None)));
    [ reflexivity | right; exists Minutes; reflexivity ].
Defined.

(** X16. With [showZeroes] on and [compact] off, an update never removes a
    child node of the timer: the child nodes stay as they are, except that
    the element of the highest non-zero interval is appended when the
    timer does not contain it. *)
Theorem showZeroes_update_removes_nothing :
  forall (getFullYear : Z -> Z) (settings : Settings) (time : Z) (clock : Clock)
         (timer : Timer),
    showZeroes settings = true ->
    compact settings = false ->
    let r := resolve getFullYear settings time clock timer in
    children (fst r)
    = children timer
      ++ match snd r with
         | Some i =>
             if contains timer (nth i intervals Seconds) then []
             else [Interval (nth i intervals Seconds)]
         | None => []
         end.
Proof.
  intros getFullYear settings time clock timer Hzeroes Hcompact r. subst r.
  split_resolve getFullYear settings time clock timer.
  rewrite Hchildren, Hindex. clear Hchildren Hindex.
  destruct settings as [oc oe ot cp an pv sep sz ly lw ld lh lm ls].
  cbn in Hcompact, Hzeroes. subst cp sz.
  destruct timer as [nodes hidden live text].
  generalize (0 <? y), (0 <? w), (0 <? d), (0 <? h), (0 <? m), (0 <? s).
  intros b0 b1 b2 b3 b4 b5.
  by_first_positive
    ltac:(unfold scanAndShow, contains; cbn;
          repeat match goal with
                 | |- context [existsb ?f nodes] => destruct (existsb f nodes)
                 end;
          cbn; rewrite ?app_nil_r; reflexivity).
Qed.

Lemma showZeroes_update_removes_nothing_witness :
  showZeroes zeroesShown = true
  /\ compact zeroesShown = false
  /\ (let r := resolve utcFullYear zeroesShown (march_1_2024 + 90000)
                 (mkClock march_1_2024 march_1_2024)
                 (createdTimer zeroesShown) in
      children (fst r)
      = children (createdTimer zeroesShown)
        ++ match snd r with
           | Some i =>
               if contains (createdTimer zeroesShown) (nth i intervals Seconds)
               then []
               else [Interval (nth i intervals Seconds)]
           | None => []
           end).
Proof.
  split; [ reflexivity | ]. split; [ reflexivity | ].
  apply (showZeroes_update_removes_nothing utcFullYear zeroesShown
           (march_1_2024 + 90000) (mkClock march_1_2024 march_1_2024)
           (createdTimer zeroesShown)); reflexivity.
Defined.

(** ** The hooks of a timer, in order *)

Lemma startTimer_running_events (getFullYear : Z -> Z) (settings : Settings)
    (time : Z) (clock : Clock) (handle : Z) (timer : Timer) (log : list Event) :
  (time - atUpdate clock <=? 0) && negb (allowNegative settings) = false ->
  events (fst (startTimer getFullYear settings time clock handle timer log))
  = log ++ (if onTick settings
            then [TickHook time (time - atUpdate clock)] else []).
Proof.
  intros H. unfold startTimer.
  pose proof (updateTime_running getFullYear settings time clock
                {| element := timer; repeat := None; scheduled := false;
                   events := log |} H) as (Hc & _ & _).
  pose proof (updateTime_running_events getFullYear settings time clock
                {| element := timer; repeat := None; scheduled := false;
                   events := log |} H) as He.
  destruct (updateTime getFullYear settings time clock _) as [s1 c].
  cbn [fst snd] in Hc, He. subst c. cbn [fst events]. exact He.
Qed.

Lemma createTimer_effective (getFullYear : Z -> Z) (settings : Settings)
    (e : Target) :
  createTimer getFullYear settings (parsedTime e) (atCreate e) (firstClock e)
    (intervalHandle e)
  = createElements getFullYear settings (effectiveTime e) (firstClock e)
      (intervalHandle e)
      ((if invalidTime (parsedTime e) then [ConsoleError] else [])
       ++ (if onCreate settings then [CreateHook (effectiveTime e)] else [])).
Proof.
  unfold createTimer, effectiveTime, invalidTime.
  destruct (parsedTime e) as [t | ]; [ destruct (t =? 0) | ];
    destruct (onCreate settings); reflexivity.
Qed.

Lemma run_hooks_until_end (getFullYear : Z -> Z) (settings : Settings)
    (time handle : Z) (clocks : list Clock) :
  allowNegative settings = false ->
  handle <> 0 ->
  forall s : Session,
    repeat s = Some handle ->
    scheduled s = true ->
    events (run getFullYear settings time clocks s)
    = events s ++ hooksUntilEnd settings time clocks
    /\ scheduled (run getFullYear settings time clocks s)
       = negb (existsb (fun c => time - atUpdate c <=? 0) clocks).
Proof.
  intros Hneg Hh.
  induction clocks as [ | c clocks IH]; intros s Hrep Hsch.
  - simpl. rewrite app_nil_r. now split.
  - cbn [existsb hooksUntilEnd]. unfold run. cbn [fold_left].
    fold (run getFullYear settings time clocks
            (fire getFullYear settings time s c)).
    unfold fire. rewrite Hsch.
    destruct (time - atUpdate c <=? 0) eqn:Hdiff; cbn [orb negb].
    + rewrite (updateTime_expired_bound getFullYear settings time c s handle)
        by (assumption || lia).
      cbn [fst]. rewrite run_unscheduled by reflexivity.
      cbn [events scheduled]. now split.
    + assert (Hrun : (time - atUpdate c <=? 0) && negb (allowNegative settings)
                     = false) by (rewrite Hdiff; reflexivity).
      destruct (updateTime_running getFullYear settings time c s Hrun)
        as (_ & Hsch' & Hrep').
      pose proof (updateTime_running_events getFullYear settings time c s Hrun)
        as He.
      destruct (IH (fst (updateTime getFullYear settings time c s)))
        as [IHe IHs]; [ congruence | congruence | ].
      rewrite IHe, IHs, He, <- app_assoc. now split.
Qed.

(** X17. A timer created before its target, with [allowNegative] off: the
    hooks it invokes, in order, are [onCreate], one [onTick] for the first
    update and for every firing of the interval that finds the target
    ahead, then [onEnd] at the first firing that finds it reached, and
    nothing after that; the interval is cleared exactly when some firing
    found the target reached. *)
Theorem hooks_fire_in_order :
  forall (getFullYear : Z -> Z) (settings : Settings) (t created : Z)
         (clock : Clock) (handle : Z) (clocks : list Clock),
    allowNegative settings = false ->
    handle <> 0 ->
    t <> 0 ->
    0 < t - atUpdate clock ->
    let r := createTimer getFullYear settings (Some t) created clock handle in
    let s' := run getFullYear settings t clocks (fst r) in
    snd r = Normal
    /\ events s'
       = (if onCreate settings then [CreateHook t] else [])
         ++ (if onTick settings then [TickHook t (t - atUpdate clock)] else [])
         ++ hooksUntilEnd settings t clocks
    /\ scheduled s' = negb (existsb (fun c => t - atUpdate c <=? 0) clocks).
Proof.
  intros getFullYear settings t created clock handle clocks Hneg Hh Ht Hahead
    r s'. subst s' r.
  assert (Hrun : (t - atUpdate clock <=? 0) && negb (allowNegative settings)
                 = false)
    by (replace (t - atUpdate clock <=? 0) with false by lia; reflexivity).
  assert (Hcreate :
            createTimer getFullYear settings (Some t) created clock handle
            = startTimer getFullYear settings t clock handle
                (createdTimer settings)
                (if onCreate settings then [CreateHook t] else [])).
  { unfold createTimer, invalidTime, createElements.
    replace (t =? 0) with false by lia.
    destruct (onCreate settings); reflexivity. }
  rewrite Hcreate.
  destruct (startTimer_running getFullYear settings t clock handle
              (createdTimer settings)
              (if onCreate settings then [CreateHook t] else []) Hrun)
    as (Hnormal & Hsch & Hrep).
  pose proof (startTimer_running_events getFullYear settings t clock handle
                (createdTimer settings)
                (if onCreate settings then [CreateHook t] else []) Hrun) as He.
  destruct (run_hooks_until_end getFullYear settings t handle clocks Hneg Hh
              _ Hrep Hsch) as [Hevents Hscheduled].
  split; [ exact Hnormal | ].
  split; [ | exact Hscheduled ].
  rewrite Hevents, He, <- app_assoc. reflexivity.
Qed.

Lemma hooks_fire_in_order_witness :
  allowNegative withHooks = false
  /\ 1 <> 0
  /\ march_1_2024 + 2500 <> 0
  /\ 0 < march_1_2024 + 2500 - atUpdate (mkClock march_1_2024 march_1_2024)
  /\ (let clocks := [mkClock (march_1_2024 + 1000) (march_1_2024 + 1000);
                     mkClock (march_1_2024 + 2000) (march_1_2024 + 2000);
                     mkClock (march_1_2024 + 3000) (march_1_2024 + 3000);
                     mkClock (march_1_2024 + 4000) (march_1_2024 + 4000)] in
      let r := createTimer utcFullYear withHooks (Some (march_1_2024 + 2500)) 0
                 (mkClock march_1_2024 march_1_2024) 1 in
      let s' := run utcFullYear withHooks (march_1_2024 + 2500) clocks (fst r) in
      snd r = Normal
      /\ events s'
         = (if onCreate withHooks then [CreateHook (march_1_2024 + 2500)] else [])
           ++ (if onTick withHooks
               then [TickHook (march_1_2024 + 2500)
                       (march_1_2024 + 2500
                        - atUpdate (mkClock march_1_2024 march_1_2024))]
               else [])
           ++ hooksUntilEnd withHooks (march_1_2024 + 2500) clocks
      /\ scheduled s'
         = negb (existsb (fun c => march_1_2024 + 2500 - atUpdate c <=? 0)
                   clocks)).
Proof.
  split; [ reflexivity | ]. split; [ lia | ].
  split; [ vm_compute; discriminate | ]. split; [ vm_compute; reflexivity | ].
  apply (hooks_fire_in_order utcFullYear withHooks (march_1_2024 + 2500) 0
           (mkClock march_1_2024 march_1_2024) 1);
    [ reflexivity | lia | vm_compute; discriminate | vm_compute; reflexivity ].
Defined.

Lemma run_ticks_forever (getFullYear : Z -> Z) (settings : Settings)
    (time : Z) (clocks : list Clock) :
  allowNegative settings = true ->
  forall s : Session,
    scheduled s = true ->
    events (run getFullYear settings time clocks s)
    = events s ++ tickHooks settings time clocks
    /\ scheduled (run getFullYear settings time clocks s) = true.
Proof.
  intros Hneg.
  induction clocks as [ | c clocks IH]; intros s Hsch.
  - unfold tickHooks. simpl. destruct (onTick settings);
      rewrite app_nil_r; now split.
  - unfold run. cbn [fold_left].
    fold (run getFullYear settings time clocks
            (fire getFullYear settings time s c)).
    unfold fire. rewrite Hsch.
    assert (Hrun : (time - atUpdate c <=? 0) && negb (allowNegative settings)
                   = false) by (rewrite Hneg; apply andb_false_r).
    destruct (updateTime_running getFullYear settings time c s Hrun)
      as (_ & Hsch' & _).
    pose proof (updateTime_running_events getFullYear settings time c s Hrun)
      as He.
    destruct (IH (fst (updateTime getFullYear settings time c s)))
      as [IHe IHs]; [ congruence | ].
    rewrite IHe, IHs, He, <- app_assoc. split; [ | reflexivity ].
    unfold tickHooks. destruct (onTick settings); reflexivity.
Qed.

(** X18. With [allowNegative] on a timer never ends, whatever its
    [datetime] is: creation completes normally, every update (the first
    one and each firing of the interval) invokes [onTick] and nothing
    else, [onEnd] is never invoked and the interval stays installed.  A
    missing or invalid [datetime] only adds the logged error in front. *)
Theorem allowNegative_timer_never_ends :
  forall (getFullYear : Z -> Z) (settings : Settings) (e : Target)
         (clocks : list Clock),
    allowNegative settings = true ->
    let r := createTimer getFullYear settings (parsedTime e) (atCreate e)
               (firstClock e) (intervalHandle e) in
    let s' := run getFullYear settings (effectiveTime e) clocks (fst r) in
    snd r = Normal
    /\ scheduled s' = true
    /\ events s'
       = (if invalidTime (parsedTime e) then [ConsoleError] else [])
         ++ (if onCreate settings then [CreateHook (effectiveTime e)] else [])
         ++ tickHooks settings (effectiveTime e) (firstClock e :: clocks).
Proof.
  intros getFullYear settings e clocks Hneg r s'. subst s' r.
  rewrite createTimer_effective. unfold createElements.
  assert (Hrun : (effectiveTime e - atUpdate (firstClock e) <=? 0)
                 && negb (allowNegative settings) = false)
    by (rewrite Hneg; apply andb_false_r).
  destruct (startTimer_running getFullYear settings (effectiveTime e)
              (firstClock e) (intervalHandle e) (createdTimer settings)
              ((if invalidTime (parsedTime e) then [ConsoleError] else [])
               ++ (if onCreate settings
                   then [CreateHook (effectiveTime e)] else [])) Hrun)
    as (Hnormal & Hsch & _).
  pose proof (startTimer_running_events getFullYear settings (effectiveTime e)
                (firstClock e) (intervalHandle e) (createdTimer settings)
                ((if invalidTime (parsedTime e) then [ConsoleError] else [])
                 ++ (if onCreate settings
                     then [CreateHook (effectiveTime e)] else [])) Hrun) as He.
  destruct (run_ticks_forever getFullYear settings (effectiveTime e) clocks Hneg
              _ Hsch) as [Hevents Hscheduled].
  split; [ exact Hnormal | ]. split; [ exact Hscheduled | ].
  rewrite Hevents, He, <- !app_assoc. do 2 f_equal.
  unfold tickHooks. destruct (onTick settings); reflexivity.
Qed.

Lemma allowNegative_timer_never_ends_witness :
  allowNegative countingUp = true
  /\ (let e := mkTarget None march_1_2024
                 (mkClock march_1_2024 march_1_2024) 1 in
      let clocks := [mkClock (march_1_2024 + 1000) (march_1_2024 + 1000);
                     mkClock (march_1_2024 + 2000) (march_1_2024 + 2000)] in
      let r := createTimer utcFullYear countingUp (parsedTime e) (atCreate e)
                 (firstClock e) (intervalHandle e) in
      let s' := run utcFullYear countingUp (effectiveTime e) clocks (fst r) in
      snd r = Normal
      /\ scheduled s' = true
      /\ events s'
         = (if invalidTime (parsedTime e) then [ConsoleError] else [])
           ++ (if onCreate countingUp
               then [CreateHook (effectiveTime e)] else [])
           ++ tickHooks countingUp (effectiveTime e) (firstClock e :: clocks)).
Proof.
  split; [ reflexivity | ].
  apply (allowNegative_timer_never_ends utcFullYear countingUp
           (mkTarget None march_1_2024 (mkClock march_1_2024 march_1_2024) 1)
           [mkClock (march_1_2024 + 1000) (march_1_2024 + 1000);
            mkClock (march_1_2024 + 2000) (march_1_2024 + 2000)]).
  reflexivity.
Defined.

(** ** The text of the intervals *)

Lemma entry_in_breakdown (settings : Settings) (numbers : list Z) (u : Unit) :
  List.length numbers = 6%nat ->
  In (u, nth (positionOf u) (map (pad settings) numbers) (VNum 0))
     (combine intervals (map (pad settings) numbers)).
Proof.
  intros Hlen.
  do 6 (destruct numbers as [ | ? numbers]; [ discriminate | ]).
  destruct numbers; [ | discriminate ].
  destruct u; simpl; tauto.
Qed.

Lemma breakdown_has_six_numbers (getFullYear : Z -> Z)
    (milliseconds time now : Z) :
  List.length (formatDiffNumbers getFullYear milliseconds time now) = 6%nat.
Proof. reflexivity. Qed.

(** X19. After an update that does not take the expiry branch, every
    interval element that is in the timer reads its entry of the breakdown
    (as [pad] returned it), a space, and the label [updateDisplay] picks
    for that entry. *)
Theorem displayed_text_is_the_breakdown :
  forall (getFullYear : Z -> Z) (settings : Settings) (time : Z) (clock : Clock)
         (s : Session) (u : Unit),
    (time - atUpdate clock <=? 0) && negb (allowNegative settings) = false ->
    let s' := fst (updateTime getFullYear settings time clock s) in
    let entry := nth (positionOf u)
                   (formatDiff getFullYear settings (time - atUpdate clock)
                      time (atFormat clock)) (VNum 0) in
    contains (element s') u = true ->
    content (element s') u
    = Some (toString entry ++ " " ++ unitsFor entry (labelOf settings u))%string.
Proof.
  intros getFullYear settings time clock s u Hrun s' entry. subst s' entry.
  unfold updateTime. rewrite Hrun. unfold formatDiff.
  pose proof (breakdown_has_six_numbers getFullYear (time - atUpdate clock)
                time (atFormat clock)) as Hlen.
  generalize dependent (formatDiffNumbers getFullYear (time - atUpdate clock)
                          time (atFormat clock)).
  intros numbers Hlen.
  generalize (fst (resolve getFullYear settings time clock (element s))).
  intros timer1 Hc.
  assert (Hc1 : contains timer1 u = true).
  { destruct (onTick settings); cbn [fst element logEvent withTimer] in Hc;
      unfold contains in *; now rewrite updateDisplays_children in Hc. }
  assert (Htext :
            content (updateDisplays settings
                       (combine intervals (map (pad settings) numbers)) timer1) u
            = Some (toString (nth (positionOf u) (map (pad settings) numbers)
                                (VNum 0))
                    ++ " "
                    ++ unitsFor (nth (positionOf u) (map (pad settings) numbers)
                                   (VNum 0)) (labelOf settings u))%string).
  { apply updateDisplays_content_in.
    - do 6 (destruct numbers as [ | ? numbers]; [ discriminate | ]).
      destruct numbers; [ | discriminate ].
      exact intervals_NoDup.
    - now apply entry_in_breakdown.
    - exact Hc1. }
  destruct (onTick settings); cbn [fst element logEvent withTimer];
    exact Htext.
Qed.

Lemma displayed_text_is_the_breakdown_witness :
  let s := {| element := createdTimer padded; repeat := Some 1;
              scheduled := true; events := [] |} in
  let s' := fst (updateTime utcFullYear padded (march_1_2024 + 90000)
                   (mkClock march_1_2024 march_1_2024) s) in
  let entry := nth (positionOf Minutes)
                 (formatDiff utcFullYear padded
                    (march_1_2024 + 90000
                     - atUpdate (mkClock march_1_2024 march_1_2024))
                    (march_1_2024 + 90000)
                    (atFormat (mkClock march_1_2024 march_1_2024)))
                 (VNum 0) in
  (march_1_2024 + 90000 - atUpdate (mkClock march_1_2024 march_1_2024) <=? 0)
  && negb (allowNegative padded) = false
  /\ contains (element s') Minutes = true
  /\ content (element s') Minutes
     = Some (toString entry ++ " "
             ++ unitsFor entry (labelOf padded Minutes))%string.
Proof.
  cbv zeta.
  split; [ vm_compute; reflexivity | ].
  split; [ vm_compute; reflexivity | ].
  apply (displayed_text_is_the_breakdown utcFullYear padded
           (march_1_2024 + 90000) (mkClock march_1_2024 march_1_2024)
           {| element := createdTimer padded; repeat := Some 1;
              scheduled := true; events := [] |} Minutes);
    vm_compute; reflexivity.
Defined.

(** ** Expiry found by the interval *)

Lemma expiry_on_later_tick_witness :
  let s := fst (createTimer utcFullYear withHooks (Some (march_1_2024 + 1000)) 0
                  (mkClock march_1_2024 march_1_2024) 1) in
  let clock := mkClock (march_1_2024 + 1000) (march_1_2024 + 1000) in
  let s' := fire utcFullYear withHooks (march_1_2024 + 1000) s clock in
  allowNegative withHooks = false
  /\ march_1_2024 + 1000 - atUpdate clock <= 0
  /\ repeat s = Some 1
  /\ 1 <> 0
  /\ scheduled s = true
  /\ (forall u, contains (element s') u = true ->
                content (element s') u
                = Some ("0 " ++ plural (labelOf withHooks u))%string)
  /\ scheduled s' = false
  /\ events s'
     = events s
       ++ (if onEnd withHooks then [EndHook (march_1_2024 + 1000)] else [])
  /\ (forall clocks,
         run utcFullYear withHooks (march_1_2024 + 1000) clocks s' = s').
Proof.
  cbv zeta.
  split; [ reflexivity | ]. split; [ vm_compute; discriminate | ].
  split; [ vm_compute; reflexivity | ]. split; [ lia | ].
  split; [ vm_compute; reflexivity | ].
  apply (expiry_on_later_tick utcFullYear withHooks (march_1_2024 + 1000)
           (mkClock (march_1_2024 + 1000) (march_1_2024 + 1000)) 1
           (fst (createTimer utcFullYear withHooks (Some (march_1_2024 + 1000)) 0
                   (mkClock march_1_2024 march_1_2024) 1)));
    [ reflexivity | vm_compute; discriminate | vm_compute; reflexivity | lia
    | vm_compute; reflexivity ].
Defined.

(** ** The constructor *)

Lemma createTimer_completion (getFullYear : Z -> Z) (settings : Settings)
    (e : Target) :
  snd (createTimer getFullYear settings (parsedTime e) (atCreate e)
         (firstClock e) (intervalHandle e))
  = if reachedAtSetup e && negb (allowNegative settings)
    then ReferenceError else Normal.
Proof.
  rewrite createTimer_effective. unfold createElements, reachedAtSetup.
  destruct ((effectiveTime e - atUpdate (firstClock e) <=? 0)
            && negb (allowNegative settings)) eqn:Hcase.
  - apply andb_true_iff in Hcase. destruct Hcase as [Hdiff Hneg].
    apply negb_true_iff in Hneg.
    rewrite startTimer_expired by (assumption || lia). reflexivity.
  - now apply startTimer_running.
Qed.

Lemma createTimer_scheduled (getFullYear : Z -> Z) (settings : Settings)
    (e : Target) :
  scheduled (sessionOf getFullYear settings e)
  = negb (reachedAtSetup e && negb (allowNegative settings)).
Proof.
  unfold sessionOf. rewrite createTimer_effective.
  unfold createElements, reachedAtSetup.
  destruct ((effectiveTime e - atUpdate (firstClock e) <=? 0)
            && negb (allowNegative settings)) eqn:Hcase.
  - apply andb_true_iff in Hcase. destruct Hcase as [Hdiff Hneg].
    apply negb_true_iff in Hneg.
    rewrite startTimer_expired by (assumption || lia). reflexivity.
  - now apply startTimer_running.
Qed.

Lemma createTimers_all (getFullYear : Z -> Z) (settings : Settings)
    (found : list Target) :
  Forall (fun e => reachedAtSetup e && negb (allowNegative settings) = false)
    found ->
  createTimers getFullYear settings found
  = (map (sessionOf getFullYear settings) found, Normal).
Proof.
  induction 1 as [ | e rest He _ IH]; simpl.
  - reflexivity.
  - pose proof (createTimer_completion getFullYear settings e) as Hc.
    rewrite He in Hc. unfold sessionOf.
    destruct (createTimer getFullYear settings (parsedTime e) (atCreate e)
                (firstClock e) (intervalHandle e)) as [s c].
    cbn [snd] in Hc. subst c. rewrite IH. reflexivity.
Qed.

Lemma createTimers_stops (getFullYear : Z -> Z) (settings : Settings)
    (before : list Target) (e : Target) (after : list Target) :
  Forall (fun x => reachedAtSetup x && negb (allowNegative settings) = false)
    before ->
  reachedAtSetup e && negb (allowNegative settings) = true ->
  createTimers getFullYear settings (before ++ e :: after)
  = (map (sessionOf getFullYear settings) (before ++ [e]), ReferenceError).
Proof.
  intros Hbefore He.
  induction Hbefore as [ | x rest Hx _ IH]; simpl.
  - pose proof (createTimer_completion getFullYear settings e) as Hc.
    rewrite He in Hc. unfold sessionOf.
    destruct (createTimer getFullYear settings (parsedTime e) (atCreate e)
                (firstClock e) (intervalHandle e)) as [s c].
    cbn [snd] in Hc. subst c. reflexivity.
  - pose proof (createTimer_completion getFullYear settings x) as Hc.
    rewrite Hx in Hc. unfold sessionOf at 1.
    destruct (createTimer getFullYear settings (parsedTime x) (atCreate x)
                (firstClock x) (intervalHandle x)) as [s c].
    cbn [snd] in Hc. subst c. rewrite IH. reflexivity.
Qed.

(** X21. The constructor sets the elements up in document order and stops
    at the first one whose target is already reached when [allowNegative]
    is off: it ends in the [ReferenceError] of that element, and the
    elements after it get no session at all. *)
Theorem reached_target_stops_the_constructor :
  forall (getFullYear : Z -> Z) (options : Options)
         (before : list Target) (e : Target) (after : list Target),
    allowNegative (assign defaults options) = false ->
    Forall (fun x => reachedAtSetup x = false) before ->
    reachedAtSetup e = true ->
    CountdownTimer getFullYear true options (before ++ e :: after)
    = (0%nat,
       map (sessionOf getFullYear (assign defaults options)) (before ++ [e]),
       ReferenceError).
Proof.
  intros getFullYear options before e after Hneg Hbefore He.
  unfold CountdownTimer.
  replace (Nat.eqb (List.length (before ++ e :: after)) 0) with false
    by (rewrite length_app; simpl; symmetry; apply Nat.eqb_neq; lia).
  cbn [negb orb].
  rewrite createTimers_stops; [ reflexivity | | ].
  - eapply Forall_impl; [ | exact Hbefore ].
    intros x Hx. cbn beta in Hx. now rewrite Hx.
  - now rewrite He, Hneg.
Qed.

Lemma reached_target_stops_the_constructor_witness :
  let noOptions := mkOptions None None None None None None None None
                     None None None None None None in
  let ahead := mkTarget (Some (march_1_2024 + 90000)) 0
                 (mkClock march_1_2024 march_1_2024) 1 in
  let reached := mkTarget (Some march_1_2024) 0
                   (mkClock march_1_2024 march_1_2024) 2 in
  allowNegative (assign defaults noOptions) = false
  /\ Forall (fun x => reachedAtSetup x = false) [ahead]
  /\ reachedAtSetup reached = true
  /\ CountdownTimer utcFullYear true noOptions ([ahead] ++ reached :: [ahead])
     = (0%nat,
        map (sessionOf utcFullYear (assign defaults noOptions))
          ([ahead] ++ [reached]),
        ReferenceError).
Proof.
  cbv zeta.
  split; [ reflexivity | ].
  split; [ repeat constructor | ].
  split; [ vm_compute; reflexivity | ].
  apply (reached_target_stops_the_constructor utcFullYear
           (mkOptions None None None None None None None None
              None None None None None None)
           [mkTarget (Some (march_1_2024 + 90000)) 0
              (mkClock march_1_2024 march_1_2024) 1]
           (mkTarget (Some march_1_2024) 0
              (mkClock march_1_2024 march_1_2024) 2)
           [mkTarget (Some (march_1_2024 + 90000)) 0
              (mkClock march_1_2024 march_1_2024) 1]);
    [ reflexivity | repeat constructor | vm_compute; reflexivity ].
Defined.

(** X22. When no element has reached its target at set-up, or
    [allowNegative] is on, the constructor completes normally with one
    session per element found, in document order, each with its interval
    installed and no error logged by the constructor. *)
Theorem constructor_starts_every_timer :
  forall (getFullYear : Z -> Z) (options : Options) (found : list Target),
    found <> [] ->
    Forall (fun e => reachedAtSetup e
                     && negb (allowNegative (assign defaults options)) = false)
      found ->
    CountdownTimer getFullYear true options found
    = (0%nat, map (sessionOf getFullYear (assign defaults options)) found,
       Normal)
    /\ Forall (fun s => scheduled s = true)
         (map (sessionOf getFullYear (assign defaults options)) found).
Proof.
  intros getFullYear options found Hfound Hall. split.
  - unfold CountdownTimer.
    destruct found as [ | e rest]; [ contradiction | ].
    cbn [List.length Nat.eqb negb orb].
    now rewrite createTimers_all.
  - apply Forall_map. eapply Forall_impl; [ | exact Hall ].
    intros e He. cbn beta in He.
    now rewrite createTimer_scheduled, He.
Qed.

Lemma constructor_starts_every_timer_witness :
  let noOptions := mkOptions None None None None None None None None
                     None None None None None None in
  let found := [mkTarget (Some (march_1_2024 + 90000)) 0
                  (mkClock march_1_2024 march_1_2024) 1;
                mkTarget (Some (march_1_2024 + 400 * msPerDay)) 0
                  (mkClock march_1_2024 march_1_2024) 2] in
  found <> []
  /\ Forall (fun e => reachedAtSetup e
                      && negb (allowNegative (assign defaults noOptions))
                      = false) found
  /\ CountdownTimer utcFullYear true noOptions found
     = (0%nat, map (sessionOf utcFullYear (assign defaults noOptions)) found,
        Normal)
  /\ Forall (fun s => scheduled s = true)
       (map (sessionOf utcFullYear (assign defaults noOptions)) found).
Proof.
  cbv zeta.
  split; [ discriminate | ].
  split; [ repeat constructor | ].
  apply (constructor_starts_every_timer utcFullYear
           (mkOptions None None None None None None None None
              None None None None None None)
           [mkTarget (Some (march_1_2024 + 90000)) 0
              (mkClock march_1_2024 march_1_2024) 1;
            mkTarget (Some (march_1_2024 + 400 * msPerDay)) 0
              (mkClock march_1_2024 march_1_2024) 2]);
    [ discriminate | repeat constructor ].
Defined.
